(** * scenario-go: the scenario engine and the testing-agent turn protocol

    A shallow embedding of the message and tool model (src/message.go), the
    completion contract (src/llm.go), the result type (src/unnamed/part_000),
    the options (second part of src/llm_openai.go), the testing agent
    (second part of src/scenario_test.go, lines 338-673) and the engine
    (src/scenario.go), followed by the properties of the testing agent and
    of the engine that were checked against it.

    Conventions of the embedding:
    - a Go slice is a [list]; the engine and the testing agent take
      lengths, index, re-slice and append, which do not tell a nil slice
      from an empty one (only the JSON rendering of the criteria in the
      prompt does, and that rendering is a parameter);
    - a Go pointer that may be nil is an [option];
    - [map[string]any] is a [gmap string value], [value] being the dynamic
      values that [encoding/json] produces plus [[]string];
    - a collaborator behind an interface is a function on a world [W] that
      it may read and change; a statement that dereferences nil is
      [Panics];
    - [context.Context] is only handed on to the collaborators and is left
      out. *)

From stdpp Require Import gmap strings list.
From Stdlib Require Import ZArith DecimalString.

Set Warnings "-register-all".

(** ** The message and tool model (src/message.go) *)

Definition MessageRole := string.
Definition MessageRoleUser : MessageRole := "user".
Definition MessageRoleAssistant : MessageRole := "assistant".
Definition MessageRoleSystem : MessageRole := "system".
Definition MessageRoleDeveloper : MessageRole := "developer".

Definition ToolType := string.
Definition ToolTypeFunction : ToolType := "function".

(** Go's [any], as far as tool-call arguments and tool schemas use it. *)
Inductive value : Type :=
| VNil
| VBool (b : bool)
| VFloat64 (bits : Z)
| VString (s : string)
| VSliceAny (items : list value)
| VSliceString (items : list string)
| VMap (m : gmap string value).

(** [ToolCalls] is the field the role-inversion loop reads as
    [message.Tools]. *)
Record Message := mkMessage {
  Role : MessageRole;
  Content : string;
  ToolCalls : list value
}.

Record ToolFunction := mkToolFunction {
  Name : string;
  Description : string;
  Strict : bool;
  Parameters : gmap string value
}.

Record Tool := mkTool {
  Tool_Type : ToolType;
  Tool_Function : option ToolFunction
}.

Record ToolCallFunction := mkToolCallFunction {
  Call_Name : string;
  Arguments : gmap string value
}.

Record ToolCall := mkToolCall {
  ID : string;
  ToolCall_Type : ToolType;
  ToolCall_Function : option ToolCallFunction
}.

(** ** The completion response (src/llm.go) *)

Record LLMCompletionResponseChoiceMessage := mkChoiceMessage {
  Choice_Content : string;
  Choice_ToolCalls : list ToolCall
}.

Record LLMCompletionResponseChoice := mkChoice {
  Choice_Message : LLMCompletionResponseChoiceMessage
}.

Record LLMCompletionResponse := mkResponse {
  Choices : list LLMCompletionResponseChoice
}.

(** ** The result (src/unnamed/part_000) *)

Record Result := mkResult {
  Success : bool;
  Conversation : list Message;
  Reasoning : string;
  MetCriteria : list string;
  UnmetCriteria : list string;
  TriggeredFailures : list string;
  TotalDurationNSec : Z;
  AgentDurationNSec : Z
}.

Definition NewSuccessPartialResult (conversation : list Message)
    (reasoning : string) (metCriteria : list string) : Result :=
  {| Success := true; Conversation := conversation; Reasoning := reasoning;
     MetCriteria := metCriteria; UnmetCriteria := []; TriggeredFailures := [];
     TotalDurationNSec := 0; AgentDurationNSec := 0 |}.

Definition NewFailurePartialResult (conversation : list Message)
    (reasoning : string) (metCriteria unmetCriteria triggeredFailures : list string)
    : Result :=
  {| Success := false; Conversation := conversation; Reasoning := reasoning;
     MetCriteria := metCriteria; UnmetCriteria := unmetCriteria;
     TriggeredFailures := triggeredFailures;
     TotalDurationNSec := 0; AgentDurationNSec := 0 |}.

Definition NewInconclusivePartialResult (conversation : list Message)
    (reasoning : string) (metCriteria unmetCriteria triggeredFailures : list string)
    : Result :=
  {| Success := false; Conversation := conversation; Reasoning := reasoning;
     MetCriteria := metCriteria; UnmetCriteria := unmetCriteria;
     TriggeredFailures := triggeredFailures;
     TotalDurationNSec := 0; AgentDurationNSec := 0 |}.

(** [&Result{Success: false}], the result of most error returns. *)
Definition failedResult : Result :=
  {| Success := false; Conversation := []; Reasoning := "";
     MetCriteria := []; UnmetCriteria := []; TriggeredFailures := [];
     TotalDurationNSec := 0; AgentDurationNSec := 0 |}.

(** ** Errors, panics and formatting *)

(** An error value: [errors.New] and [fmt.Errorf] without [%w] give a
    text, [fmt.Errorf("<prefix>: %w", err)] wraps [err] and keeps it for
    [errors.Is], and the one [%v] of a [*Result] keeps the result instead
    of its rendering. *)
Inductive error : Type :=
| errors_New (text : string)
| Errorf_w (prefix : string) (err : error)
| Errorf_v (prefix : string) (r : Result).

Inductive outcome (A : Type) : Type :=
| Returns (a : A)
| Panics.
Arguments Returns {A} a.
Arguments Panics {A}.

Inductive res (A : Type) : Type :=
| Ok (a : A)
| Err (e : error).
Arguments Ok {A} a.
Arguments Err {A} e.

(** [%d] of an [int]. *)
Definition itoa (z : Z) : string := NilZero.string_of_int (Z.to_int z).

(** Wrap-around of two's complement [int64] arithmetic. *)
Definition wrap64 (z : Z) : Z :=
  ((z + 2 ^ 63) mod 2 ^ 64 - 2 ^ 63)%Z.

(** ** The testing agent: parsing the finish_test arguments
       (src/scenario_test.go, lines 588-664) *)

(** The [for i, item := range interfaceSlice] loop of [extractStringArray],
    from index [i] on. *)
Fixpoint extractItems (key : string) (i : Z) (interfaceSlice : list value)
    : res (list string) :=
  match interfaceSlice with
  | [] => Ok []
  | VString strItem :: rest =>
      match extractItems key (i + 1) rest with
      | Ok strSlice => Ok (strItem :: strSlice)
      | Err e => Err e
      end
  | _ :: _ =>
      Err (errors_New ("item at index " +:+ itoa i +:+ " in " +:+ key
                       +:+ " is not a string"))
  end.

Definition extractStringArray (data : gmap string value) (key : string)
    : res (list string) :=
  match data !! key with
  | None => Err (errors_New (key +:+ " not found"))
  | Some val =>
      match val with
      | VSliceAny interfaceSlice => extractItems key 0 interfaceSlice
      | VSliceString strSlice => Ok strSlice
      | VNil => Ok []
      | _ => Err (errors_New (key +:+ " is not a valid string array, []any, or nil"))
      end
  end.

Record FinishTestParams := mkFinishTestParams {
  verdict : string;
  reasoning : string;
  metCriteria : list string;
  unmetCriteria : list string;
  triggeredFailures : list string
}.

(** The named results are returned together; the caller reads them only
    when [err] is nil, so an error return carries the error alone. *)
Definition extractFinishTestParams (toolCall : ToolCall)
    : outcome (res FinishTestParams) :=
  match ToolCall_Function toolCall with
  | None => Panics
  | Some function =>
      let args := Arguments function in
      match args !! "verdict" with
      | Some (VString verdict) =>
          match args !! "reasoning" with
          | Some (VString reasoning) =>
              match args !! "details" with
              | Some (VMap details) =>
                  match extractStringArray details "met_criteria" with
                  | Err e => Returns (Err e)
                  | Ok metCriteria =>
                      match extractStringArray details "unmet_criteria" with
                      | Err e => Returns (Err e)
                      | Ok unmetCriteria =>
                          match extractStringArray details "triggered_failures" with
                          | Err e => Returns (Err e)
                          | Ok triggeredFailures =>
                              Returns (Ok (mkFinishTestParams verdict reasoning
                                metCriteria unmetCriteria triggeredFailures))
                          end
                      end
                  end
              | _ => Returns (Err (errors_New "details is not a map"))
              end
          | _ => Returns (Err (errors_New "reasoning is not a string"))
          end
      | _ => Returns (Err (errors_New "verdict is not a string"))
      end
  end.

(** ** The testing agent: the prompt (src/scenario_test.go, lines 350-405) *)

Record testingAgentSystemMessageParams := mkSystemMessageParams {
  p_Description : string;
  p_Strategy : string;
  p_SuccessCriteriaJSON : string;
  p_FailureCriteriaJSON : string
}.

(** A parsed [text/template]: literal text and field actions. *)
Inductive templateNode : Type :=
| Text (s : string)
| Field (f : testingAgentSystemMessageParams -> string).

Definition testingAgentSystemMessageTemplate : list templateNode :=
  [ Text "
<role>
You are pretending to be a user, you are testing an AI Agent (shown as the user role) based on a scenario.
Approach this naturally, as a human user would, with very short inputs, few words, all lowercase, imperative, not periods, like when they google or talk to chatgpt.
</role>

<goal>
Your goal (assistant) is to interact with the Agent Under Test (user) as if you were a human user to see if it can complete the scenario successfully.
</goal>

<scenario>
";
    Field p_Description;
    Text "
</scenario>

<strategy>
";
    Field p_Strategy;
    Text "
</strategy>

<success_criteria>
";
    Field p_SuccessCriteriaJSON;
    Text "
</success_criteria>

<failure_criteria>
";
    Field p_FailureCriteriaJSON;
    Text "
</failure_criteria>

<execution_flow>
1. Generate the first message to start the scenario
2. After the Agent Under Test (user) responds, generate the next message to send to the Agent Under Test, keep repeating step 2 until the criteria match
3. If the test should end, use the finish_test tool to determine if success or failure criteria have been met
</execution_flow>

<rules>
1. Test should end immediately if a failure criteria is triggered
2. Test should continue until all success criteria have been met
3. DO NOT make any judgment calls that are not explicitly listed in the success or failure criteria, withhold judgement if necessary
4. DO NOT carry over any requests yourself, YOU ARE NOT the assistant today, wait for the user to do it
</rules>
" ].

Definition testingAgentFinishTestMessage : string := "
System:

<finish_test>
This is the last message, conversation has reached the maximum number of turns, give your final verdict,
if you don't have enough information to make a verdict, say inconclusive with max turns reached.
</finish_test>".

(** [Template.Execute] into a [bytes.Buffer]: the fields are strings and
    are written as they are; the error is always nil here. *)
Definition Execute (tmpl : list templateNode)
    (params : testingAgentSystemMessageParams) : string * option error :=
  (foldr (fun node rest =>
            match node with
            | Text s => s +:+ rest
            | Field f => f params +:+ rest
            end) "" tmpl, None).

(** The loop variable of [for _, message := range messages] after one
    pass through the loop body. *)
Definition invertRole (message : Message) : Message :=
  if (0 <? length (ToolCalls message))%nat then message
  else if String.eqb (Role message) MessageRoleAssistant
    then mkMessage MessageRoleUser (Content message) (ToolCalls message)
  else if String.eqb (Role message) MessageRoleUser
    then mkMessage MessageRoleAssistant (Content message) (ToolCalls message)
  else message.

(** The role-inversion loop. The state is the slice and the loop variable.
    Go's [range] copies each element into the loop variable, the body
    assigns to that variable only, and no statement stores into
    [messages[i]]: the slice component is never written. *)
Definition invertRolesLoop (messages : list Message)
    : list Message * option Message :=
  fold_left
    (fun '(slice, _) element => (slice, Some (invertRole element)))
    messages (messages, None).

(** The schema of the finish_test tool. *)
Definition stringArraySchema (description : string) : value :=
  VMap (list_to_map
    [ ("type", VString "array");
      ("items", VMap (list_to_map [("type", VString "string")]));
      ("description", VString description) ]).

Definition finishTestTools : list Tool :=
  [ {| Tool_Type := ToolTypeFunction;
       Tool_Function := Some
         {| Name := "finish_test";
            Description := "Complete the test with a final verdict";
            Strict := true;
            Parameters := list_to_map
              [ ("type", VString "object");
                ("properties", VMap (list_to_map
                  [ ("verdict", VMap (list_to_map
                      [ ("type", VString "string");
                        ("enum", VSliceString ["success"; "failure"; "inconclusive"]);
                        ("description", VString "The final verdict of the test") ]));
                    ("reasoning", VMap (list_to_map
                      [ ("type", VString "string");
                        ("description", VString "Explanation of why this verdict was reached") ]));
                    ("details", VMap (list_to_map
                      [ ("type", VString "object");
                        ("properties", VMap (list_to_map
                          [ ("met_criteria", stringArraySchema
                               "List of success criteria that have been met");
                            ("unmet_criteria", stringArraySchema
                               "List of success criteria that have not been met");
                            ("triggered_failures", stringArraySchema
                               "List of failure criteria that have been triggered") ]));
                        ("required", VSliceString
                           ["met_criteria"; "unmet_criteria"; "triggered_failures"]);
                        ("additionalProperties", VBool false);
                        ("description", VString
                           "Detailed information about criteria evaluation") ])) ]));
                ("required", VSliceString ["verdict"; "reasoning"; "details"]);
                ("additionalProperties", VBool false) ] |} |} ].

(** ** The interfaces and GenerateNextMessage
       (src/llm.go, src/agent.go, src/scenario_test.go lines 407-586) *)

(** The arguments of one [Completion] call. [temperature] is the bit
    pattern of a [float64]. *)
Record CompletionRequest := mkRequest {
  req_messages : list Message;
  req_temperature : option Z;
  req_maxTokens : option Z;
  req_tools : list Tool;
  req_toolChoice : option string
}.

(** What [GenerateNextMessage] returns: a string pointer, a Result pointer
    and an error. *)
Definition Generated : Type := option string * option Result * option error.

(** What [Run] of a scenario returns: a Result pointer and an error. *)
Definition RunReturn : Type := option Result * option error.

Section Interfaces.

Context {W : Type}.

Record LLMCompletion := mkLLMCompletion {
  Completion : W -> CompletionRequest ->
               W * outcome (option LLMCompletionResponse * option error)
}.

Record TestingAgent := mkTestingAgent {
  GenerateNextMessage :
    W -> string -> string -> list string -> list string -> list Message ->
    bool -> bool -> W * outcome Generated
}.

Record Agent := mkAgent {
  Agent_Run : W -> string -> W * outcome (list Message * option error)
}.

Record testingAgent := mkTestingAgentStruct {
  llmCompletion : LLMCompletion;
  temperature : option Z;
  maxTokens : option Z
}.

(** [json.MarshalIndent(criteria, "", "  ")] of the standard library. *)
Variable json_MarshalIndent : list string -> string * option error.

(** Lines 448-548 of [GenerateNextMessage]: everything up to the call of
    the backend. An error return leaves before any call is made. *)
Definition buildRequest (t : testingAgent) (description strategy : string)
    (successCriteria failureCriteria : list string)
    (conversation : list Message) (lastMessage : bool)
    : res CompletionRequest :=
  match json_MarshalIndent successCriteria with
  | (_, Some err) => Err err
  | (successCriteriaJSON, None) =>
  match json_MarshalIndent failureCriteria with
  | (_, Some err) => Err err
  | (failureCriteriaJSON, None) =>
  let systemMessageParams :=
    {| p_Description := description; p_Strategy := strategy;
       p_SuccessCriteriaJSON := successCriteriaJSON;
       p_FailureCriteriaJSON := failureCriteriaJSON |} in
  match Execute testingAgentSystemMessageTemplate systemMessageParams with
  | (_, Some err) => Err (Errorf_w "failed to execute system message template" err)
  | (systemMessage, None) =>
  let messages :=
    [ mkMessage MessageRoleSystem systemMessage [];
      mkMessage MessageRoleAssistant "Hello, how can I help you today?" [] ] in
  let messages := messages ++ conversation in
  let messages :=
    if lastMessage
    then messages ++ [mkMessage MessageRoleUser testingAgentFinishTestMessage []]
    else messages in
  let messages := fst (invertRolesLoop messages) in
  let tools := finishTestTools in
  let toolChoice := if negb lastMessage then None else Some "required" in
  Ok (mkRequest messages (temperature t) (maxTokens t) tools toolChoice)
  end end end.

(** Lines 557-585: what is made of the first choice. [fallThrough] is the
    code after the [if len(choice.Message.ToolCalls) > 0] block. *)
Definition readChoice (conversation : list Message)
    (choice : LLMCompletionResponseChoice) : outcome Generated :=
  let fallThrough : outcome Generated :=
    if String.eqb (Choice_Content (Choice_Message choice)) ""
    then Returns (None, None, Some (errors_New "no content returned in choice"))
    else Returns (Some (Choice_Content (Choice_Message choice)), None, None) in
  match Choice_ToolCalls (Choice_Message choice) with
  | [] => fallThrough
  | toolCall :: _ =>
      if negb (String.eqb (ToolCall_Type toolCall) ToolTypeFunction)
      then Returns (None, None, Some (errors_New "tool call is not a function"))
      else
        match ToolCall_Function toolCall with
        | None => Panics
        | Some function =>
            if String.eqb (Call_Name function) "finish_test" then
              match extractFinishTestParams toolCall with
              | Panics => Panics
              | Returns (Err err) =>
                  Returns (None, None,
                    Some (Errorf_w "failed to extract finish_test parameters" err))
              | Returns (Ok p) =>
                  if String.eqb (verdict p) "success" then
                    Returns (None, Some (NewSuccessPartialResult conversation
                      (reasoning p) (metCriteria p)), None)
                  else if String.eqb (verdict p) "failure" then
                    Returns (None, Some (NewFailurePartialResult conversation
                      (reasoning p) (metCriteria p) (unmetCriteria p)
                      (triggeredFailures p)), None)
                  else
                    Returns (None, Some (NewInconclusivePartialResult conversation
                      (reasoning p) (metCriteria p) (unmetCriteria p)
                      (triggeredFailures p)), None)
              end
            else fallThrough
        end
  end.

(** Lines 549-556: the backend's answer. A nil response with a nil error
    panics at [resp.Choices]. *)
Definition readCompletion (conversation : list Message)
    (answer : option LLMCompletionResponse * option error) : outcome Generated :=
  match answer with
  | (_, Some err) =>
      Returns (None, None, Some (Errorf_w "failed to generate llm completion" err))
  | (None, None) => Panics
  | (Some resp, None) =>
      match Choices resp with
      | [] => Returns (None, None, Some (errors_New "no choices returned"))
      | choice :: _ => readChoice conversation choice
      end
  end.

Definition testingAgent_GenerateNextMessage (t : testingAgent) (w : W)
    (description strategy : string)
    (successCriteria failureCriteria : list string)
    (conversation : list Message) (firstMessage lastMessage : bool)
    : W * outcome Generated :=
  match buildRequest t description strategy successCriteria failureCriteria
          conversation lastMessage with
  | Err err => (w, Returns (None, None, Some err))
  | Ok request =>
      match Completion (llmCompletion t) w request with
      | (w', Panics) => (w', Panics)
      | (w', Returns answer) => (w', readCompletion conversation answer)
      end
  end.

(** [ptr.Ptr(0.0)]: the bit pattern of [0.0] is [0]. *)
Definition NewTestingAgent (llmCompletion : LLMCompletion) : TestingAgent :=
  mkTestingAgent (testingAgent_GenerateNextMessage
    {| llmCompletion := llmCompletion; temperature := Some 0%Z; maxTokens := None |}).

End Interfaces.

Arguments LLMCompletion : clear implicits.
Arguments TestingAgent : clear implicits.
Arguments Agent : clear implicits.
Arguments testingAgent : clear implicits.

(** ** The engine and its options (src/scenario.go, src/llm_openai.go
       lines 118-168) *)

Section Engine.

Context {W : Type}.

(** The fields of the [scenario] struct, with the receiver's [s_] in front
    of each name. *)
Record scenario := mkScenario {
  s_description : string;
  s_strategy : string;
  s_agent : option (Agent W);
  s_testingAgent : option (TestingAgent W);
  s_successCriteria : list string;
  s_failureCriteria : list string;
  s_maxTurns : Z;
  s_conversation : list Message
}.

Definition set_conversation (s : scenario) (conversation : list Message) : scenario :=
  mkScenario (s_description s) (s_strategy s) (s_agent s) (s_testingAgent s)
    (s_successCriteria s) (s_failureCriteria s) (s_maxTurns s) conversation.

(** The closures that the [With...] functions return, one constructor per
    function; a nil interface argument is [None]. *)
Inductive ScenarioOption : Type :=
| WithDescription (description : string)
| WithStrategy (strategy : string)
| WithMaxTurns (maxTurns : Z)
| WithAgent (agent : option (Agent W))
| WithTestingAgent (testingAgent : option (TestingAgent W))
| WithSuccessCriteria (criteria : list string)
| WithFailureCriteria (criteria : list string).

(** [opt(s)]: the body of each closure. *)
Definition applyOption (opt : ScenarioOption) (s : scenario) : scenario :=
  match opt with
  | WithDescription description =>
      mkScenario description (s_strategy s) (s_agent s) (s_testingAgent s)
        (s_successCriteria s) (s_failureCriteria s) (s_maxTurns s) (s_conversation s)
  | WithStrategy strategy =>
      mkScenario (s_description s) strategy (s_agent s) (s_testingAgent s)
        (s_successCriteria s) (s_failureCriteria s) (s_maxTurns s) (s_conversation s)
  | WithMaxTurns maxTurns =>
      mkScenario (s_description s) (s_strategy s) (s_agent s) (s_testingAgent s)
        (s_successCriteria s) (s_failureCriteria s) maxTurns (s_conversation s)
  | WithAgent agent =>
      mkScenario (s_description s) (s_strategy s) agent (s_testingAgent s)
        (s_successCriteria s) (s_failureCriteria s) (s_maxTurns s) (s_conversation s)
  | WithTestingAgent testingAgent =>
      mkScenario (s_description s) (s_strategy s) (s_agent s) testingAgent
        (s_successCriteria s) (s_failureCriteria s) (s_maxTurns s) (s_conversation s)
  | WithSuccessCriteria criteria =>
      mkScenario (s_description s) (s_strategy s) (s_agent s) (s_testingAgent s)
        criteria (s_failureCriteria s) (s_maxTurns s) (s_conversation s)
  | WithFailureCriteria criteria =>
      mkScenario (s_description s) (s_strategy s) (s_agent s) (s_testingAgent s)
        (s_successCriteria s) criteria (s_maxTurns s) (s_conversation s)
  end.

Definition NewScenario (opts : list ScenarioOption) : scenario :=
  fold_left (fun s opt => applyOption opt s) opts
    {| s_description := "";
       s_strategy := "Start with a first message and guide the conversation to play out the scenario.";
       s_agent := None;
       s_testingAgent := None;
       s_successCriteria := [];
       s_failureCriteria := [];
       s_maxTurns := 10;
       s_conversation := [] |}.

(** One call of a collaborator, as the engine makes it. *)
Inductive Call : Type :=
| CallGenerate (description strategy : string)
    (successCriteria failureCriteria : list string)
    (conversation : list Message) (firstMessage lastMessage : bool)
| CallAgent (message : string).

(** What a run works on besides the scenario: the world of the
    collaborators, the readings that the monotonic clock will give, in
    nanoseconds, and the calls made so far. *)
Record State := mkState {
  world : W;
  clock : nat -> Z;
  calls : list Call
}.

Definition time_Now (st : State) : Z * State :=
  (clock st 0%nat, mkState (world st) (fun n => clock st (S n)) (calls st)).

(** [time.Since(start)]: a [Duration] is an [int64] and [Time.Sub]
    saturates. *)
Definition time_Since (start : Z) (st : State) : Z * State :=
  let '(now, st) := time_Now st in
  (Z.max (- 2 ^ 63) (Z.min (2 ^ 63 - 1) (now - start)), st).

(** [s.testingAgent.GenerateNextMessage(ctx, s.description, ...)]. *)
Definition callTestingAgent (testingAgent : TestingAgent W) (s : scenario)
    (firstMessage lastMessage : bool) (st : State) : State * outcome Generated :=
  let '(w, r) :=
    GenerateNextMessage testingAgent (world st) (s_description s) (s_strategy s)
      (s_successCriteria s) (s_failureCriteria s) (s_conversation s)
      firstMessage lastMessage in
  (mkState w (clock st)
     (calls st ++ [CallGenerate (s_description s) (s_strategy s)
                     (s_successCriteria s) (s_failureCriteria s)
                     (s_conversation s) firstMessage lastMessage]), r).

(** [s.agent.Run(ctx, message)]. *)
Definition callAgent (agent : Agent W) (message : string) (st : State)
    : State * outcome (list Message * option error) :=
  let '(w, r) := Agent_Run agent (world st) message in
  (mkState w (clock st) (calls st ++ [CallAgent message]), r).

(** [if len(agentMessages) > 0 && agentMessages[0].Role == role
    { agentMessages = agentMessages[1:] }]. *)
Definition dropFirstOfRole (role : MessageRole) (agentMessages : list Message)
    : list Message :=
  if (0 <? length agentMessages)%nat
     && match agentMessages !! 0%nat with
        | Some first => String.eqb (Role first) role
        | None => false
        end
  then drop 1 agentMessages
  else agentMessages.

(** How one pass through the loop body ends. *)
Inductive TurnEnd : Type :=
| Continue (currentMessage : option string) (agentDuration : Z)
| Return (r : RunReturn)
| Panic.

(** The body of [for iteration := range s.maxTurns] (lines 61-100). *)
Definition turn (agent : Agent W) (testStart : Z) (iteration : Z)
    (currentMessage : option string) (agentDuration : Z)
    (s : scenario) (st : State) : scenario * State * TurnEnd :=
  let lastIteration := (iteration =? wrap64 (s_maxTurns s - 1))%Z in
  match currentMessage with
  | None => (s, st, Panic)
  | Some text =>
  let s := set_conversation s (s_conversation s ++ [mkMessage "user" text []]) in
  let '(agentStart, st) := time_Now st in
  match callAgent agent text st with
  | (st, Panics) => (s, st, Panic)
  | (st, Returns (_, Some err)) =>
      (s, st, Return (Some failedResult, Some (Errorf_w "failed to run agent" err)))
  | (st, Returns (agentMessages, None)) =>
  if (length agentMessages =? 0)%nat
  then (s, st, Return (Some failedResult,
                       Some (errors_New "no messages returned from agent")))
  else
  let agentMessages := dropFirstOfRole MessageRoleSystem agentMessages in
  let agentMessages := dropFirstOfRole MessageRoleUser agentMessages in
  let '(elapsed, st) := time_Since agentStart st in
  let agentDuration := wrap64 (agentDuration + elapsed) in
  let s := set_conversation s (s_conversation s ++ agentMessages) in
  match s_testingAgent s with
  | None => (s, st, Panic)
  | Some testingAgent =>
  match callTestingAgent testingAgent s false lastIteration st with
  | (st, Panics) => (s, st, Panic)
  | (st, Returns (_, _, Some err)) =>
      (s, st, Return (Some failedResult,
                      Some (Errorf_w "failed to generate next message" err)))
  | (st, Returns (_, Some result, None)) =>
      let '(total, st) := time_Since testStart st in
      (s, st, Return (Some (mkResult (Success result) (Conversation result)
                              (Reasoning result) (MetCriteria result)
                              (UnmetCriteria result) (TriggeredFailures result)
                              total agentDuration), None))
  | (st, Returns (nextMessage, None, None)) =>
      (s, st, Continue nextMessage agentDuration)
  end end end end.

(** The [for] loop with [remaining] passes still to make, and the return
    after it (lines 60-110). *)
Fixpoint turns (agent : Agent W) (testStart : Z) (remaining : nat) (iteration : Z)
    (currentMessage : option string) (agentDuration : Z)
    (s : scenario) (st : State) : scenario * State * outcome RunReturn :=
  match remaining with
  | O =>
      let '(total, st) := time_Since testStart st in
      (s, st, Returns (Some
        {| Success := false;
           Conversation := s_conversation s;
           Reasoning := "The conversation did not end in a failure after "
                        +:+ itoa (s_maxTurns s) +:+ " turns.";
           MetCriteria := [];
           UnmetCriteria := [];
           TriggeredFailures := [];
           TotalDurationNSec := total;
           AgentDurationNSec := agentDuration |}, None))
  | S remaining =>
      match turn agent testStart iteration currentMessage agentDuration s st with
      | (s, st, Panic) => (s, st, Panics)
      | (s, st, Return r) => (s, st, Returns r)
      | (s, st, Continue currentMessage agentDuration) =>
          turns agent testStart remaining (iteration + 1) currentMessage
            agentDuration s st
      end
  end.

(** The method [Run] of the scenario. [range] over a non-positive [int]
    makes no pass. *)
Definition Run (s : scenario) (st : State) : scenario * State * outcome RunReturn :=
  match s_agent s with
  | None => (s, st, Returns (Some failedResult, Some (errors_New "agent not set")))
  | Some agent =>
  let '(testStart, st) := time_Now st in
  let agentDuration := 0%Z in
  match s_testingAgent s with
  | None => (s, st, Panics)
  | Some testingAgent =>
  match callTestingAgent testingAgent s true false st with
  | (st, Panics) => (s, st, Panics)
  | (st, Returns (_, _, Some err)) =>
      (s, st, Returns (Some failedResult,
                       Some (Errorf_w "failed to generate initial message" err)))
  | (st, Returns (_, Some initialResult, None)) =>
      (s, st, Returns (Some initialResult,
                       Some (Errorf_v "initial message generated a result which is unexpected"
                               initialResult)))
  | (st, Returns (initialMessage, None, None) ) =>
      turns agent testStart (Z.to_nat (s_maxTurns s)) 0 initialMessage
        agentDuration s st
  end end end.

End Engine.

Arguments scenario : clear implicits.
Arguments ScenarioOption : clear implicits.
Arguments State : clear implicits.

(** ** Definitions used by the statements *)

(** The transcript [GenerateNextMessage] constructs before the
    role-inversion loop, given the rendered system message. *)
Definition transcript (systemMessage : string) (conversation : list Message)
    (lastMessage : bool) : list Message :=
  [ mkMessage MessageRoleSystem systemMessage [];
    mkMessage MessageRoleAssistant "Hello, how can I help you today?" [] ]
  ++ conversation
  ++ (if lastMessage
      then [mkMessage MessageRoleUser testingAgentFinishTestMessage []]
      else []).

(** The role inversion as the specification words it: a message without
    tool calls has user and assistant exchanged, any other message is kept. *)
Definition swapped_spec (m : Message) : Message :=
  match ToolCalls m with
  | [] =>
      if decide (Role m = "user") then mkMessage "assistant" (Content m) []
      else if decide (Role m = "assistant") then mkMessage "user" (Content m) []
      else m
  | _ :: _ => m
  end.

(** The strings of a heterogeneous sequence, when all its elements are
    strings. *)
Fixpoint asStrings (items : list value) : option (list string) :=
  match items with
  | [] => Some []
  | VString s :: rest => cons s <$> asStrings rest
  | _ :: _ => None
  end.

(** The shapes a criteria array is accepted in, after the wording of the
    specification, with a key that is absent counted among the other
    shapes: the sequence read, or [None] for a parse error. *)
Definition criteriaArray_spec (entry : option value) : option (list string) :=
  match entry with
  | Some (VSliceAny items) => asStrings items
  | Some (VSliceString items) => Some items
  | Some VNil => Some []
  | _ => None
  end.

(** The reply normalisation as the specification words it: a first message
    of role system is dropped, then a first message of role user. *)
Definition normalized_spec (reply : list Message) : list Message :=
  let afterSystem :=
    match reply with
    | first :: rest => if decide (Role first = "system") then rest else reply
    | [] => []
    end in
  match afterSystem with
  | first :: rest => if decide (Role first = "user") then rest else afterSystem
  | [] => []
  end.

(** The conversation of a list of turns, each given by the text sent to the
    agent under test and the message it replied: the user message with that
    text, then the reply, turn after turn. *)
Definition exchanges (turnsMade : list (string * Message)) : list Message :=
  flat_map (fun turnMade => [mkMessage "user" (fst turnMade) []; snd turnMade])
    turnsMade.

(** The messages of the agent calls in a list of calls, in order. *)
Definition agentCalls (cs : list Call) : list string :=
  omap (fun c => match c with CallAgent message => Some message | _ => None end) cs.

(** ** Collaborators of the examples *)

(** A stand-in for [json.MarshalIndent]: joins the strings. *)
Definition sampleMarshalIndent (criteria : list string) : string * option error :=
  (String.concat "," criteria, None).

(** A backend that records each request in its world and always gives the
    same answer. *)
Definition recordingBackend (answer : option LLMCompletionResponse * option error)
    : LLMCompletion (list CompletionRequest) :=
  mkLLMCompletion (fun w request => (w ++ [request], Returns answer)).

Definition sampleTestingAgent (answer : option LLMCompletionResponse * option error)
    : testingAgent (list CompletionRequest) :=
  {| llmCompletion := recordingBackend answer;
     temperature := Some 0%Z; maxTokens := None |}.

Definition textAnswer (text : string) : option LLMCompletionResponse * option error :=
  (Some (mkResponse [mkChoice (mkChoiceMessage text [])]), None).

Definition toolCallAnswer (text : string) (toolCall : ToolCall)
    : option LLMCompletionResponse * option error :=
  (Some (mkResponse [mkChoice (mkChoiceMessage text [toolCall])]), None).

Definition finishTestCall (arguments : gmap string value) : ToolCall :=
  mkToolCall "call_1" ToolTypeFunction
    (Some (mkToolCallFunction "finish_test" arguments)).

Definition verdictArguments (verdict : string) (details : gmap string value)
    : gmap string value :=
  list_to_map [ ("verdict", VString verdict);
                ("reasoning", VString "because");
                ("details", VMap details) ].

Definition fullDetails : gmap string value :=
  list_to_map [ ("met_criteria", VSliceAny [VString "greets"]);
                ("unmet_criteria", VSliceString ["books a table"]);
                ("triggered_failures", VNil) ].

(** A details map without the key met_criteria. *)
Definition detailsWithoutMet : gmap string value :=
  list_to_map [ ("unmet_criteria", VSliceAny []);
                ("triggered_failures", VSliceAny []) ].

Definition sampleConversation : list Message :=
  [ mkMessage "user" "hello" []; mkMessage "assistant" "hi, what do you need?" [] ].

(** The agent of the tests: one assistant message echoing its input. *)
Definition echoAgent {W : Type} : Agent W :=
  mkAgent (fun w message =>
    (w, Returns ([mkMessage MessageRoleAssistant
                    ("Agent response to: " +:+ message) []], None))).

(** An agent that echoes the prompt framing before its answer. *)
Definition framingAgent {W : Type} : Agent W :=
  mkAgent (fun w message =>
    (w, Returns ([ mkMessage MessageRoleSystem "You are a helpful agent." [];
                   mkMessage MessageRoleUser message [];
                   mkMessage MessageRoleAssistant "done" [] ], None))).

(** A testing agent that never gives a verdict and numbers its messages;
    its world is the number of calls made. *)
Definition countingTester : TestingAgent nat :=
  mkTestingAgent (fun w _ _ _ _ _ _ _ =>
    (S w, Returns (Some ("User message turn " +:+ itoa (Z.of_nat (S w))),
                   None, None))).

(** The state a run starts in: no call made, the clock giving a reading
    every microsecond. *)
Definition startState {W : Type} (w : W) : State W :=
  mkState w (fun n => (Z.of_nat n * 1000)%Z) [].

(** A scenario whose testing agent is the one built by [NewTestingAgent]
    over a backend that answers the opening request with a finish_test call of
    verdict success. *)
Definition verdictFirstScenario : scenario (list CompletionRequest) :=
  NewScenario
    [ WithAgent (Some echoAgent);
      WithTestingAgent (Some (NewTestingAgent sampleMarshalIndent
        (recordingBackend
           (toolCallAnswer "" (finishTestCall
              (verdictArguments "success" fullDetails)))))) ].

(** ** The OpenAI adapter (src/llm_openai.go, lines 1-117) *)

(** The values of the openai-go library that the adapter builds and
    reads: the four message constructors, the tool parameter, the request
    parameters and the completion. Of the fields of the request parameters
    that the adapter leaves at their zero value, the tool choice is kept. *)
Inductive ChatCompletionMessageParamUnion : Type :=
| UserMessage (content : string)
| AssistantMessage (content : string)
| SystemMessage (content : string)
| DeveloperMessage (content : string).

Record FunctionDefinitionParam := mkFunctionDefinitionParam {
  fd_Name : string;
  fd_Description : string;
  fd_Strict : bool;
  fd_Parameters : gmap string value
}.

Record ChatCompletionToolParam := mkToolParam {
  tp_Type : string;
  tp_Function : FunctionDefinitionParam
}.

Record ChatCompletionNewParams := mkNewParams {
  np_Messages : list ChatCompletionMessageParamUnion;
  np_Model : string;
  np_Tools : list ChatCompletionToolParam;
  np_Temperature : option Z;
  np_MaxTokens : option Z;
  np_ToolChoice : option string
}.

Record ChatCompletionMessageToolCallFunction := mkCompletionCallFunction {
  ccf_Arguments : string;
  ccf_Name : string
}.

Record ChatCompletionMessageToolCall := mkCompletionCall {
  cc_ID : string;
  cc_Type : string;
  cc_Function : ChatCompletionMessageToolCallFunction
}.

Record ChatCompletionMessage := mkCompletionMessage {
  cm_Content : string;
  cm_ToolCalls : list ChatCompletionMessageToolCall
}.

Record ChatCompletionChoice := mkCompletionChoice {
  cc_Message : ChatCompletionMessage
}.

Record ChatCompletion := mkCompletion {
  cc_Choices : list ChatCompletionChoice
}.

(** The [switch message.Role] of the first loop; [None] is the default
    case. *)
Definition convertMessage (message : Message)
    : option ChatCompletionMessageParamUnion :=
  if String.eqb (Role message) MessageRoleUser
    then Some (UserMessage (Content message))
  else if String.eqb (Role message) MessageRoleAssistant
    then Some (AssistantMessage (Content message))
  else if String.eqb (Role message) MessageRoleSystem
    then Some (SystemMessage (Content message))
  else if String.eqb (Role message) MessageRoleDeveloper
    then Some (DeveloperMessage (Content message))
  else None.

(** The loop [for i, message := range messages]. *)
Fixpoint convertMessages (messages : list Message)
    : res (list ChatCompletionMessageParamUnion) :=
  match messages with
  | [] => Ok []
  | message :: rest =>
      match convertMessage message with
      | None => Err (errors_New ("unknown message role: " +:+ Role message))
      | Some openaiMessage =>
          match convertMessages rest with
          | Ok openaiMessages => Ok (openaiMessage :: openaiMessages)
          | Err e => Err e
          end
      end
  end.

(** The loop [for i, tool := range tools]; [tool.Function.Name] on a nil
    function panics. *)
Fixpoint convertTools (tools : list Tool)
    : outcome (res (list ChatCompletionToolParam)) :=
  match tools with
  | [] => Returns (Ok [])
  | tool :: rest =>
      if negb (String.eqb (Tool_Type tool) ToolTypeFunction)
      then Returns (Err (errors_New ("tool type is not function: "
                                     +:+ Tool_Type tool)))
      else
        match Tool_Function tool with
        | None => Panics
        | Some function =>
            match convertTools rest with
            | Panics => Panics
            | Returns (Err e) => Returns (Err e)
            | Returns (Ok openaiTools) =>
                Returns (Ok (mkToolParam (Tool_Type tool)
                               (mkFunctionDefinitionParam (Name function)
                                  (Description function) (Strict function)
                                  (Parameters function)) :: openaiTools))
            end
        end
  end.

Section OpenAIAdapter.

Context {W : Type}.

(** [json.Unmarshal] of the arguments into a [map[string]any]. *)
Variable json_Unmarshal : string -> res (gmap string value).

(** [client.Chat.Completions.New]. *)
Record openAIClient := mkOpenAIClient {
  Chat_Completions_New :
    W -> ChatCompletionNewParams ->
    W * outcome (option ChatCompletion * option error)
}.

Record openAICompletion := mkOpenAICompletion {
  model : string;
  client : openAIClient
}.

Definition NewOpenAICompletionWithClient (model : string) (client : openAIClient)
    : openAICompletion :=
  mkOpenAICompletion model client.

(** The loop [for j, toolCall := range choice.Message.ToolCalls] of
    choice [i], from index [j] on. *)
Fixpoint convertToolCalls (i j : Z) (toolCalls : list ChatCompletionMessageToolCall)
    : res (list ToolCall) :=
  match toolCalls with
  | [] => Ok []
  | toolCall :: rest =>
      match json_Unmarshal (ccf_Arguments (cc_Function toolCall)) with
      | Err err =>
          Err (Errorf_w ("failed to unmarshal tool call arguments ("
                         +:+ itoa i +:+ "-" +:+ itoa j +:+ ")") err)
      | Ok args =>
          match convertToolCalls i (j + 1) rest with
          | Err e => Err e
          | Ok converted =>
              Ok (mkToolCall (cc_ID toolCall) (cc_Type toolCall)
                    (Some (mkToolCallFunction
                             (ccf_Name (cc_Function toolCall)) args))
                  :: converted)
          end
      end
  end.

(** The loop [for i, choice := range chatCompletion.Choices], from index
    [i] on. *)
Fixpoint convertChoices (i : Z) (choices : list ChatCompletionChoice)
    : res (list LLMCompletionResponseChoice) :=
  match choices with
  | [] => Ok []
  | choice :: rest =>
      match convertToolCalls i 0 (cm_ToolCalls (cc_Message choice)) with
      | Err e => Err e
      | Ok toolCalls =>
          match convertChoices (i + 1) rest with
          | Err e => Err e
          | Ok converted =>
              Ok (mkChoice (mkChoiceMessage (cm_Content (cc_Message choice))
                              toolCalls) :: converted)
          end
      end
  end.

(** The method [Completion] of the adapter. The [toolChoice] of the
    request is not read. A nil completion with a nil error panics at
    [chatCompletion.Choices]. *)
Definition openAICompletion_Completion (c : openAICompletion) (w : W)
    (request : CompletionRequest)
    : W * outcome (option LLMCompletionResponse * option error) :=
  match convertMessages (req_messages request) with
  | Err e => (w, Returns (None, Some e))
  | Ok openaiMessages =>
  match convertTools (req_tools request) with
  | Panics => (w, Panics)
  | Returns (Err e) => (w, Returns (None, Some e))
  | Returns (Ok openaiTools) =>
  let params :=
    {| np_Messages := openaiMessages;
       np_Model := model c;
       np_Tools := openaiTools;
       np_Temperature := req_temperature request;
       np_MaxTokens := req_maxTokens request;
       np_ToolChoice := None |} in
  match Chat_Completions_New (client c) w params with
  | (w', Panics) => (w', Panics)
  | (w', Returns (_, Some err)) =>
      (w', Returns (None, Some (Errorf_w "failed to create chat completion" err)))
  | (w', Returns (None, None)) => (w', Panics)
  | (w', Returns (Some chatCompletion, None)) =>
      match convertChoices 0 (cc_Choices chatCompletion) with
      | Err e => (w', Returns (None, Some e))
      | Ok choices => (w', Returns (Some (mkResponse choices), None))
      end
  end end end.

(** The adapter as an [LLMCompletion]. *)
Definition openAIBackend (c : openAICompletion) : LLMCompletion W :=
  mkLLMCompletion (openAICompletion_Completion c).

End OpenAIAdapter.

Arguments openAIClient : clear implicits.
Arguments openAICompletion : clear implicits.

(** ** The mocks of the engine's tests (src/scenario_test.go, lines 14-68) *)

Section Mocks.

Context {W : Type}.

Record mockAgent := mkMockAgent {
  runFunc : option (W -> string -> W * outcome (list Message * option error))
}.

Definition mockAgent_Run (m : mockAgent) (w : W) (message : string)
    : W * outcome (list Message * option error) :=
  match runFunc m with
  | Some f => f w message
  | None =>
      (w, Returns ([mkMessage MessageRoleAssistant
                      ("Agent response to: " +:+ message) []], None))
  end.

Record mockTestingAgent := mkMockTestingAgent {
  generateNextMessageFunc :
    option (W -> string -> string -> list string -> list string ->
            list Message -> bool -> bool -> W * outcome Generated)
}.

Definition mockTestingAgent_GenerateNextMessage (m : mockTestingAgent) (w : W)
    (description strategy : string)
    (successCriteria failureCriteria : list string)
    (conversation : list Message) (firstMessage lastMessage : bool)
    : W * outcome Generated :=
  match generateNextMessageFunc m with
  | Some f =>
      f w description strategy successCriteria failureCriteria conversation
        firstMessage lastMessage
  | None =>
      if firstMessage then (w, Returns (Some "Initial user message", None, None))
      else (w, Returns (None,
                 Some (NewSuccessPartialResult conversation "Test succeeded"
                         ["Success criteria met"]), None))
  end.

Definition mockAgentOf (m : mockAgent) : Agent W := mkAgent (mockAgent_Run m).

Definition mockTestingAgentOf (m : mockTestingAgent) : TestingAgent W :=
  mkTestingAgent (mockTestingAgent_GenerateNextMessage m).

End Mocks.

Arguments mockAgent : clear implicits.
Arguments mockTestingAgent : clear implicits.

(** ** Further definitions used by the statements *)

(** The value an option sets, field by field. *)
Definition descriptionSet {W} (opt : ScenarioOption W) : option string :=
  match opt with WithDescription description => Some description | _ => None end.
Definition strategySet {W} (opt : ScenarioOption W) : option string :=
  match opt with WithStrategy strategy => Some strategy | _ => None end.
Definition maxTurnsSet {W} (opt : ScenarioOption W) : option Z :=
  match opt with WithMaxTurns maxTurns => Some maxTurns | _ => None end.
Definition agentSet {W} (opt : ScenarioOption W) : option (option (Agent W)) :=
  match opt with WithAgent agent => Some agent | _ => None end.
Definition testingAgentSet {W} (opt : ScenarioOption W)
    : option (option (TestingAgent W)) :=
  match opt with WithTestingAgent testingAgent => Some testingAgent | _ => None end.
Definition successCriteriaSet {W} (opt : ScenarioOption W) : option (list string) :=
  match opt with WithSuccessCriteria criteria => Some criteria | _ => None end.
Definition failureCriteriaSet {W} (opt : ScenarioOption W) : option (list string) :=
  match opt with WithFailureCriteria criteria => Some criteria | _ => None end.

(** The last value set among a list of options, or the default. *)
Definition lastSet {W A} (set : ScenarioOption W -> option A) (default : A)
    (opts : list (ScenarioOption W)) : A :=
  from_option id default (last (omap set opts)).

(** The field an option writes, by its position in the struct. *)
Definition optionField {W} (opt : ScenarioOption W) : nat :=
  match opt with
  | WithDescription _ => 0
  | WithStrategy _ => 1
  | WithAgent _ => 2
  | WithTestingAgent _ => 3
  | WithSuccessCriteria _ => 4
  | WithFailureCriteria _ => 5
  | WithMaxTurns _ => 6
  end.

(** The calls of the testing agent in a list of calls. *)
Definition generateCalls (cs : list Call) : list Call :=
  omap (fun c => match c with CallGenerate _ _ _ _ _ _ _ => Some c | _ => None end) cs.

(** The calls of the turns of a run, [turnsMade] turns being over: each
    turn calls the agent under test and then, unless the run ended on
    that call, the testing agent with the configuration, not as first
    message, and as last message on the turn numbered [maxTurns - 1]. *)
Fixpoint turnCalls (description strategy : string)
    (successCriteria failureCriteria : list string) (maxTurns : Z)
    (turnsMade : Z) (cs : list Call) : Prop :=
  match cs with
  | [] => True
  | CallAgent _ :: cs' =>
      (turnsMade < maxTurns)%Z /\
      match cs' with
      | [] => True
      | CallGenerate d g sc fc _ firstMessage lastMessage :: cs'' =>
          d = description /\ g = strategy /\ sc = successCriteria
          /\ fc = failureCriteria /\ firstMessage = false
          /\ lastMessage = bool_decide (turnsMade = maxTurns - 1)%Z
          /\ turnCalls description strategy successCriteria failureCriteria
               maxTurns (turnsMade + 1) cs''
      | CallAgent _ :: _ => False
      end
  | CallGenerate _ _ _ _ _ _ _ :: _ => False
  end.

(** A clock that does not run backwards and whose readings stay below
    2^62 nanoseconds. *)
Definition steadyClock (clock : nat -> Z) : Prop :=
  forall n, (0 <= clock n)%Z /\ (clock n <= clock (S n))%Z /\ (clock n < 2 ^ 62)%Z.

(** The arguments of a finish_test call as decoded from JSON: every array
    is a heterogeneous sequence of strings. *)
Definition encodeFinishTest (p : FinishTestParams) : gmap string value :=
  list_to_map
    [ ("verdict", VString (verdict p));
      ("reasoning", VString (reasoning p));
      ("details", VMap (list_to_map
         [ ("met_criteria", VSliceAny (VString <$> metCriteria p));
           ("unmet_criteria", VSliceAny (VString <$> unmetCriteria p));
           ("triggered_failures", VSliceAny (VString <$> triggeredFailures p)) ])) ].

(** Whether a value is a string. *)
Definition isString (v : value) : bool :=
  match v with VString _ => true | _ => false end.

(** The roles the adapter knows. *)
Definition knownRole (role : MessageRole) : bool :=
  bool_decide (role ∈ ["user"; "assistant"; "system"; "developer"]).

(** The role and the content of a message of the library. *)
Definition unionRole (m : ChatCompletionMessageParamUnion) : MessageRole :=
  match m with
  | UserMessage _ => "user"
  | AssistantMessage _ => "assistant"
  | SystemMessage _ => "system"
  | DeveloperMessage _ => "developer"
  end.

Definition unionContent (m : ChatCompletionMessageParamUnion) : string :=
  match m with
  | UserMessage content | AssistantMessage content
  | SystemMessage content | DeveloperMessage content => content
  end.

(** A tool the adapter accepts: of function type, with its function set. *)
Definition functionTool (tool : Tool) : Prop :=
  Tool_Type tool = ToolTypeFunction /\ Tool_Function tool <> None.

(** ** Further collaborators of the examples *)

(** An agent under test that fails. *)
Definition failingAgent {W : Type} (err : error) : Agent W :=
  mkAgent (fun w _ => (w, Returns ([], Some err))).

(** An agent under test that returns no message. *)
Definition silentAgent {W : Type} : Agent W :=
  mkAgent (fun w _ => (w, Returns ([], None))).

(** A testing agent that fails. *)
Definition failingTester {W : Type} (err : error) : TestingAgent W :=
  mkTestingAgent (fun w _ _ _ _ _ _ _ => (w, Returns (None, None, Some err))).

(** A testing agent that returns three nils. *)
Definition muteTester {W : Type} : TestingAgent W :=
  mkTestingAgent (fun w _ _ _ _ _ _ _ => (w, Returns (None, None, None))).

(** A stand-in for [json.Unmarshal]: the empty object decodes, nothing
    else does. *)
Definition sampleUnmarshal (text : string) : res (gmap string value) :=
  if String.eqb text "{}" then Ok ∅
  else Err (errors_New "unexpected end of JSON input").

(** A client that records the parameters it is called with and answers
    with one choice: a text and one tool call. *)
Definition recordingClient (arguments : string)
    : openAIClient (list ChatCompletionNewParams) :=
  mkOpenAIClient (fun w params =>
    (w ++ [params],
     Returns (Some (mkCompletion
       [mkCompletionChoice (mkCompletionMessage "hello"
          [mkCompletionCall "call_1" "function"
             (mkCompletionCallFunction arguments "finish_test")])]), None))).

(** The scenario of the examples: the echoing agent, the counting testing
    agent and a turn budget. *)
Definition sampleScenario (maxTurns : Z) : scenario nat :=
  NewScenario [ WithAgent (Some echoAgent);
                WithTestingAgent (Some countingTester);
                WithMaxTurns maxTurns ].

(** A scenario of the two given collaborators, with the default budget. *)
Definition scenarioOf {W : Type} (agent : option (Agent W))
    (testingAgent : option (TestingAgent W)) : scenario W :=
  NewScenario [WithAgent agent; WithTestingAgent testingAgent].

(** The scenario of the test of a successful run: the two mocks with their
    default behaviour. *)
Definition mockScenario (maxTurns : Z) : scenario unit :=
  NewScenario [ WithDescription "Test Description";
                WithAgent (Some (mockAgentOf (mkMockAgent None)));
                WithTestingAgent (Some (mockTestingAgentOf (mkMockTestingAgent None)));
                WithSuccessCriteria ["Success criteria met"];
                WithMaxTurns maxTurns ].

(** A start state whose clock gives a reading every microsecond for a
    while and then stands still. *)
Definition steadyState {W : Type} (w : W) : State W :=
  mkState w (fun n => Z.min (Z.of_nat n * 1000) (2 ^ 61))%Z [].

(** The adapter over the recording client. *)
Definition sampleAdapter (arguments : string)
    : openAICompletion (list ChatCompletionNewParams) :=
  NewOpenAICompletionWithClient "gpt-4o-mini" (recordingClient arguments).

(** A message of a role the adapter does not know. *)
Definition toolMessage : Message := mkMessage "tool" "42" [].

(** ** The testing agent *)

Section TestingAgentFacts.

Context {W : Type}.
Variable json_MarshalIndent : list string -> string * option error.

Implicit Types (t : testingAgent W) (w : W) (conversation : list Message).

Lemma fold_keeps_slice (elements : list Message)
    (state : list Message * option Message) :
  fst (fold_left
         (fun '(slice, _) element => (slice, Some (invertRole element)))
         elements state) = fst state.
Proof.
  revert state.
  induction elements as [|element elements IH]; intros [slice current]; [done|].
  cbn [fold_left]. by rewrite IH.
Qed.

(** The role-inversion loop leaves the slice as it was. *)
Lemma invertRolesLoop_slice (messages : list Message) :
  fst (invertRolesLoop messages) = messages.
Proof. unfold invertRolesLoop. by rewrite fold_keeps_slice. Qed.

Lemma Execute_nil_error tmpl params : snd (Execute tmpl params) = None.
Proof. done. Qed.

(** The request carries the transcript as constructed. *)
Lemma buildRequest_messages t description strategy successCriteria
    failureCriteria conversation lastMessage request :
  buildRequest json_MarshalIndent t description strategy successCriteria
    failureCriteria conversation lastMessage = Ok request ->
  exists systemMessage,
    req_messages request = transcript systemMessage conversation lastMessage.
Proof.
  unfold buildRequest.
  destruct (json_MarshalIndent successCriteria) as [successJSON [e1|]]; [done|].
  destruct (json_MarshalIndent failureCriteria) as [failureJSON [e2|]]; [done|].
  match goal with
  | |- context [Execute ?tmpl ?params] =>
      pose proof (Execute_nil_error tmpl params) as HE;
      destruct (Execute tmpl params) as [systemMessage [e3|]]; [done|]
  end.
  intros [= <-]. exists systemMessage. cbn [req_messages].
  rewrite invertRolesLoop_slice. unfold transcript.
  destruct lastMessage; cbn [app]; [done|]. by rewrite app_nil_r.
Qed.

(** Once the request is built, the result is read off the backend's answer. *)
Lemma GenerateNextMessage_answer t w description strategy successCriteria
    failureCriteria conversation firstMessage lastMessage request w' answer :
  buildRequest json_MarshalIndent t description strategy successCriteria
    failureCriteria conversation lastMessage = Ok request ->
  Completion (llmCompletion t) w request = (w', Returns answer) ->
  testingAgent_GenerateNextMessage json_MarshalIndent t w description strategy
    successCriteria failureCriteria conversation firstMessage lastMessage
  = (w', readCompletion conversation answer).
Proof.
  intros Hreq Hcall. unfold testingAgent_GenerateNextMessage.
  by rewrite Hreq, Hcall.
Qed.

(** Conversely, a result other than an error of the preparation comes from
    an answer of the backend. *)
Lemma GenerateNextMessage_inv t w description strategy successCriteria
    failureCriteria conversation firstMessage lastMessage w' g :
  testingAgent_GenerateNextMessage json_MarshalIndent t w description strategy
    successCriteria failureCriteria conversation firstMessage lastMessage
  = (w', Returns g) ->
  (exists err, buildRequest json_MarshalIndent t description strategy
                 successCriteria failureCriteria conversation lastMessage = Err err
               /\ g = (None, None, Some err))
  \/ (exists request answer,
        buildRequest json_MarshalIndent t description strategy successCriteria
          failureCriteria conversation lastMessage = Ok request
        /\ Completion (llmCompletion t) w request = (w', Returns answer)
        /\ readCompletion conversation answer = Returns g).
Proof.
  unfold testingAgent_GenerateNextMessage.
  destruct (buildRequest _ _ _ _ _ _ _ _) as [request|err].
  - destruct (Completion _ _ _) as [w1 [answer|]] eqn:Hcall; [|done].
    intros [= <- Hg]. right. by exists request, answer.
  - intros [= <- <-]. left. by exists err.
Qed.

(** What [readChoice] can return without an error: a text and no result,
    or a result over the conversation and no text. *)
Lemma readChoice_nil_error conversation choice message result :
  readChoice conversation choice = Returns (message, result, None) ->
  (exists text, message = Some text /\ result = None)
  \/ (exists r, message = None /\ result = Some r
                /\ Conversation r = conversation).
Proof.
  unfold readChoice.
  set (fallThrough := if String.eqb _ "" then _ else _).
  assert (Hfall : fallThrough = Returns (message, result, None) ->
                  exists text, message = Some text /\ result = None).
  { subst fallThrough. destruct (String.eqb _ ""); [done|].
    intros [= <- <-]. by eexists. }
  destruct (Choice_ToolCalls _) as [|toolCall rest]; [by left; apply Hfall|].
  destruct (negb _); [done|].
  destruct (ToolCall_Function toolCall) as [function|]; [|done].
  destruct (String.eqb (Call_Name function) "finish_test");
    [|by left; apply Hfall].
  destruct (extractFinishTestParams toolCall) as [[p|e]|]; [|done|done].
  destruct (String.eqb (verdict p) "success");
    [|destruct (String.eqb (verdict p) "failure")];
    intros [= <- <-]; right; by eexists.
Qed.

Lemma readCompletion_nil_error conversation answer message result :
  readCompletion conversation answer = Returns (message, result, None) ->
  (exists text, message = Some text /\ result = None)
  \/ (exists r, message = None /\ result = Some r
                /\ Conversation r = conversation).
Proof.
  unfold readCompletion. destruct answer as [[resp|] [err|]]; try done.
  destruct (Choices resp) as [|choice rest]; [done|].
  apply readChoice_nil_error.
Qed.

(** A result is never returned together with an error. *)
Lemma readCompletion_result conversation answer message r err :
  readCompletion conversation answer = Returns (message, Some r, err) ->
  err = None.
Proof.
  unfold readCompletion. destruct answer as [[resp|] [e|]]; try done.
  destruct (Choices resp) as [|choice rest]; [done|].
  unfold readChoice.
  set (fallThrough := if String.eqb _ "" then _ else _).
  assert (Hfall : fallThrough = Returns (message, Some r, err) -> err = None).
  { subst fallThrough. by destruct (String.eqb _ ""). }
  destruct (Choice_ToolCalls _) as [|toolCall rest']; [done|].
  destruct (negb _); [done|].
  destruct (ToolCall_Function toolCall) as [function|]; [|done].
  destruct (String.eqb (Call_Name function) "finish_test"); [|done].
  destruct (extractFinishTestParams toolCall) as [[p|e]|]; [|done|done].
  destruct (String.eqb (verdict p) "success");
    [|destruct (String.eqb (verdict p) "failure")]; by intros [= <- <- <-].
Qed.

(** [readChoice] on a first tool call of function type. *)
Lemma readChoice_function_call conversation choice toolCall rest function :
  Choice_ToolCalls (Choice_Message choice) = toolCall :: rest ->
  ToolCall_Type toolCall = ToolTypeFunction ->
  ToolCall_Function toolCall = Some function ->
  readChoice conversation choice =
    if String.eqb (Call_Name function) "finish_test" then
      match extractFinishTestParams toolCall with
      | Panics => Panics
      | Returns (Err err) =>
          Returns (None, None,
            Some (Errorf_w "failed to extract finish_test parameters" err))
      | Returns (Ok p) =>
          Returns (None,
            Some (if String.eqb (verdict p) "success"
                  then mkResult true conversation (reasoning p) (metCriteria p)
                         [] [] 0 0
                  else mkResult false conversation (reasoning p) (metCriteria p)
                         (unmetCriteria p) (triggeredFailures p) 0 0), None)
      end
    else if String.eqb (Choice_Content (Choice_Message choice)) ""
      then Returns (None, None, Some (errors_New "no content returned in choice"))
      else Returns (Some (Choice_Content (Choice_Message choice)), None, None).
Proof.
  intros Hcalls Htype Hfn. unfold readChoice.
  rewrite Hcalls, Htype, Hfn. cbn [String.eqb negb].
  replace (String.eqb ToolTypeFunction ToolTypeFunction) with true by done.
  cbn [negb].
  destruct (String.eqb (Call_Name function) "finish_test"); [|done].
  destruct (extractFinishTestParams toolCall) as [[p|e]|]; [|done|done].
  destruct (String.eqb (verdict p) "success"); [done|].
  by destruct (String.eqb (verdict p) "failure").
Qed.

Lemma extractItems_asStrings key i items :
  match asStrings items with
  | Some strings => extractItems key i items = Ok strings
  | None => exists e, extractItems key i items = Err e
  end.
Proof.
  revert i. induction items as [|item items IH]; intros i; cbn; [done|].
  destruct item; try by eexists.
  specialize (IH (i + 1)%Z). destruct (asStrings items) as [strings|]; cbn.
  - by rewrite IH.
  - destruct IH as [e ->]. by eexists.
Qed.

(** [extractStringArray] accepts exactly the shapes of
    [criteriaArray_spec]. *)
Lemma extractStringArray_shapes (data : gmap string value) key :
  match criteriaArray_spec (data !! key) with
  | Some strings => extractStringArray data key = Ok strings
  | None => exists e, extractStringArray data key = Err e
  end.
Proof.
  unfold extractStringArray, criteriaArray_spec.
  destruct (data !! key) as [[| | | |items| |]|]; try done; try by eexists.
  apply extractItems_asStrings.
Qed.

(** C1 (defect of the code). The claim has every message without tool
    calls reach the backend with user and assistant exchanged. For the
    conversation holding the one message user "hello", the request that the
    backend records has the roles system, assistant, user, which are the
    roles of the constructed transcript, while the exchange asked for gives
    system, user, assistant. *)
Theorem C1_roles_reach_backend_unswapped :
  map (fun request => map Role (req_messages request))
      (fst (testingAgent_GenerateNextMessage sampleMarshalIndent
              (sampleTestingAgent (textAnswer "ok")) [] "d" "s" [] []
              [mkMessage "user" "hello" []] false false))
    = [["system"; "assistant"; "user"]]
  /\ (forall systemMessage,
        map Role (map swapped_spec
                    (transcript systemMessage [mkMessage "user" "hello" []] false))
        = ["system"; "user"; "assistant"]).
Proof. split; [by vm_compute | done]. Qed.

(** C2. For a finish_test tool call whose arguments parse, the testing
    agent returns a result and nothing else, whatever the verdict string:
    for "success" it has Success true and carries the met criteria; for
    "failure" it has Success false and carries the met, unmet and
    triggered-failure lists; for any other string, "inconclusive" among
    them, it is the same record as for "failure". *)
Theorem C2_verdict_mapping_total t w description strategy successCriteria
    failureCriteria conversation firstMessage lastMessage request w' resp
    choice choices toolCall toolCalls function p :
  buildRequest json_MarshalIndent t description strategy successCriteria
    failureCriteria conversation lastMessage = Ok request ->
  Completion (llmCompletion t) w request = (w', Returns (Some resp, None)) ->
  Choices resp = choice :: choices ->
  Choice_ToolCalls (Choice_Message choice) = toolCall :: toolCalls ->
  ToolCall_Type toolCall = ToolTypeFunction ->
  ToolCall_Function toolCall = Some function ->
  Call_Name function = "finish_test" ->
  extractFinishTestParams toolCall = Returns (Ok p) ->
  exists r,
    testingAgent_GenerateNextMessage json_MarshalIndent t w description strategy
      successCriteria failureCriteria conversation firstMessage lastMessage
    = (w', Returns (None, Some r, None))
    /\ (verdict p = "success" ->
        r = mkResult true conversation (reasoning p) (metCriteria p) [] [] 0 0)
    /\ (verdict p = "failure" ->
        r = mkResult false conversation (reasoning p) (metCriteria p)
              (unmetCriteria p) (triggeredFailures p) 0 0)
    /\ (verdict p <> "success" -> verdict p <> "failure" ->
        r = mkResult false conversation (reasoning p) (metCriteria p)
              (unmetCriteria p) (triggeredFailures p) 0 0)
    /\ (verdict p = "inconclusive" -> Success r = false).
Proof.
  intros Hreq Hcall Hchoices Hcalls Htype Hfn Hname Hparams.
  rewrite (GenerateNextMessage_answer _ _ _ _ _ _ _ _ _ _ _ _ Hreq Hcall).
  unfold readCompletion. rewrite Hchoices.
  rewrite (readChoice_function_call _ _ _ _ _ Hcalls Htype Hfn).
  rewrite Hname, Hparams. cbn [String.eqb Ascii.eqb Bool.eqb].
  eexists. split; [reflexivity|].
  destruct (String.eqb_spec (verdict p) "success") as [Hs|Hs].
  - repeat split; intros; try done; rewrite Hs in *; done.
  - repeat split; intros; done.
Qed.

(** C3 (as amended). With a string verdict, a string reasoning and a
    details map, each of the three criteria arrays is read from the value
    under its key: a heterogeneous sequence whose elements are all strings
    gives these strings, a string sequence gives itself, a nil value gives
    the empty sequence; any other shape is a parse error, and so is a key
    that the details map does not hold. *)
Theorem C3_criteria_arrays_extracted toolCall function v r
    (details : gmap string value) :
  ToolCall_Function toolCall = Some function ->
  Arguments function !! "verdict" = Some (VString v) ->
  Arguments function !! "reasoning" = Some (VString r) ->
  Arguments function !! "details" = Some (VMap details) ->
  match criteriaArray_spec (details !! "met_criteria"),
        criteriaArray_spec (details !! "unmet_criteria"),
        criteriaArray_spec (details !! "triggered_failures") with
  | Some met, Some unmet, Some triggered =>
      extractFinishTestParams toolCall
      = Returns (Ok (mkFinishTestParams v r met unmet triggered))
  | _, _, _ => exists e, extractFinishTestParams toolCall = Returns (Err e)
  end
  /\ (forall key,
        key ∈ ["met_criteria"; "unmet_criteria"; "triggered_failures"] ->
        details !! key = None ->
        exists e, extractFinishTestParams toolCall = Returns (Err e)).
Proof.
  intros Hfn Hv Hr Hd.
  assert (Hshape :
    match criteriaArray_spec (details !! "met_criteria"),
          criteriaArray_spec (details !! "unmet_criteria"),
          criteriaArray_spec (details !! "triggered_failures") with
    | Some met, Some unmet, Some triggered =>
        extractFinishTestParams toolCall
        = Returns (Ok (mkFinishTestParams v r met unmet triggered))
    | _, _, _ => exists e, extractFinishTestParams toolCall = Returns (Err e)
    end).
  { unfold extractFinishTestParams. rewrite Hfn. cbn zeta. rewrite Hv, Hr, Hd.
    pose proof (extractStringArray_shapes details "met_criteria") as Hmet.
    pose proof (extractStringArray_shapes details "unmet_criteria") as Hunmet.
    pose proof (extractStringArray_shapes details "triggered_failures") as Htrig.
    destruct (criteriaArray_spec (details !! "met_criteria")) as [met|];
      [rewrite Hmet|destruct Hmet as [e ->]; by eexists].
    destruct (criteriaArray_spec (details !! "unmet_criteria")) as [unmet|];
      [rewrite Hunmet|destruct Hunmet as [e ->]; by eexists].
    destruct (criteriaArray_spec (details !! "triggered_failures")) as [trig|];
      [by rewrite Htrig|destruct Htrig as [e ->]; by eexists]. }
  split; [exact Hshape|].
  intros key Hkey Hnone.
  assert (Hcase : key = "met_criteria" \/ key = "unmet_criteria"
                  \/ key = "triggered_failures").
  { repeat (apply elem_of_cons in Hkey as [->|Hkey]; [tauto|]).
    by apply elem_of_nil in Hkey. }
  destruct Hcase as [->|[->| ->]]; rewrite Hnone in Hshape; cbn in Hshape.
  - done.
  - by destruct (criteriaArray_spec (details !! "met_criteria")).
  - destruct (criteriaArray_spec (details !! "met_criteria")); [|done].
    by destruct (criteriaArray_spec (details !! "unmet_criteria")).
Qed.

(** C7. Whenever GenerateNextMessage returns a nil error, exactly one of
    the next-message text and the result is non-nil. *)
Theorem C7_exactly_one_of_text_and_result t w description strategy
    successCriteria failureCriteria conversation firstMessage lastMessage
    w' message result :
  testingAgent_GenerateNextMessage json_MarshalIndent t w description strategy
    successCriteria failureCriteria conversation firstMessage lastMessage
  = (w', Returns (message, result, None)) ->
  (message <> None /\ result = None) \/ (message = None /\ result <> None).
Proof.
  intros Hrun.
  destruct (GenerateNextMessage_inv _ _ _ _ _ _ _ _ _ _ _ Hrun)
    as [(err & _ & [=])|(request & answer & _ & _ & Hread)].
  destruct (readCompletion_nil_error _ _ _ _ Hread)
    as [(text & -> & ->)|(r & -> & -> & _)]; [by left|by right].
Qed.

(** C9. A result produced by GenerateNextMessage has as its Conversation
    the conversation argument itself. The rendered system prompt, the
    assistant greeting and, on the last message, the finish_test cue are
    the messages of the request around that conversation; none of them is
    added to the result. *)
Theorem C9_result_conversation_is_argument t w description strategy
    successCriteria failureCriteria conversation firstMessage lastMessage
    w' message r err :
  testingAgent_GenerateNextMessage json_MarshalIndent t w description strategy
    successCriteria failureCriteria conversation firstMessage lastMessage
  = (w', Returns (message, Some r, err)) ->
  Conversation r = conversation
  /\ exists request systemMessage,
       buildRequest json_MarshalIndent t description strategy successCriteria
         failureCriteria conversation lastMessage = Ok request
       /\ req_messages request =
            [ mkMessage "system" systemMessage [];
              mkMessage "assistant" "Hello, how can I help you today?" [] ]
            ++ Conversation r
            ++ (if lastMessage
                then [mkMessage "user" testingAgentFinishTestMessage []]
                else []).
Proof.
  intros Hrun.
  destruct (GenerateNextMessage_inv _ _ _ _ _ _ _ _ _ _ _ Hrun)
    as [(e & _ & [=])|(request & answer & Hreq & _ & Hread)].
  pose proof (readCompletion_result _ _ _ _ _ Hread) as ->.
  destruct (readCompletion_nil_error _ _ _ _ Hread)
    as [(text & _ & [=])|(r' & _ & [= <-] & Hconv)].
  split; [done|].
  destruct (buildRequest_messages _ _ _ _ _ _ _ _ Hreq) as [systemMessage Hm].
  exists request, systemMessage. by rewrite Hconv.
Qed.

(** C10. When the first tool call of the first choice is of function type
    and names a function other than finish_test, neither a verdict nor a
    parse error comes of it: non-empty content is returned as the next
    message text, and empty content gives the error "no content returned in
    choice". *)
Theorem C10_other_function_falls_through t w description strategy
    successCriteria failureCriteria conversation firstMessage lastMessage
    request w' resp choice choices toolCall toolCalls function :
  buildRequest json_MarshalIndent t description strategy successCriteria
    failureCriteria conversation lastMessage = Ok request ->
  Completion (llmCompletion t) w request = (w', Returns (Some resp, None)) ->
  Choices resp = choice :: choices ->
  Choice_ToolCalls (Choice_Message choice) = toolCall :: toolCalls ->
  ToolCall_Type toolCall = ToolTypeFunction ->
  ToolCall_Function toolCall = Some function ->
  Call_Name function <> "finish_test" ->
  (Choice_Content (Choice_Message choice) <> "" ->
   testingAgent_GenerateNextMessage json_MarshalIndent t w description strategy
     successCriteria failureCriteria conversation firstMessage lastMessage
   = (w', Returns (Some (Choice_Content (Choice_Message choice)), None, None)))
  /\ (Choice_Content (Choice_Message choice) = "" ->
      testingAgent_GenerateNextMessage json_MarshalIndent t w description strategy
        successCriteria failureCriteria conversation firstMessage lastMessage
      = (w', Returns (None, None,
                      Some (errors_New "no content returned in choice")))).
Proof.
  intros Hreq Hcall Hchoices Hcalls Htype Hfn Hname.
  rewrite (GenerateNextMessage_answer _ _ _ _ _ _ _ _ _ _ _ _ Hreq Hcall).
  unfold readCompletion. rewrite Hchoices.
  rewrite (readChoice_function_call _ _ _ _ _ Hcalls Htype Hfn).
  apply String.eqb_neq in Hname. rewrite Hname.
  split; intros Hcontent.
  - apply String.eqb_neq in Hcontent. by rewrite Hcontent.
  - by rewrite Hcontent.
Qed.

End TestingAgentFacts.

(** ** The scenario engine *)

Section EngineFacts.

Context {W : Type}.

Implicit Types (s : scenario W) (st : State W) (agent : Agent W)
  (testingAgent : TestingAgent W) (opts : list (ScenarioOption W)).

Lemma applyOption_conversation (opt : ScenarioOption W) s :
  s_conversation (applyOption opt s) = s_conversation s.
Proof. by destruct opt. Qed.

Lemma fold_options_conversation opts s :
  s_conversation (fold_left (fun s opt => applyOption opt s) opts s)
  = s_conversation s.
Proof.
  revert s. induction opts as [|opt opts IH]; intros s; [done|].
  cbn [fold_left]. by rewrite IH, applyOption_conversation.
Qed.

(** A scenario starts with an empty conversation, whatever its options. *)
Lemma NewScenario_conversation opts : s_conversation (NewScenario opts) = [].
Proof. unfold NewScenario. by rewrite fold_options_conversation. Qed.

Lemma set_conversation_same s : set_conversation s (s_conversation s) = s.
Proof. by destruct s. Qed.

Lemma set_conversation_twice s c1 c2 :
  set_conversation (set_conversation s c1) c2 = set_conversation s c2.
Proof. done. Qed.

(** The two conditional re-slicings of the loop body are the normalisation
    of the specification. *)
Lemma dropFirstOfRole_normalized (reply : list Message) :
  dropFirstOfRole MessageRoleUser (dropFirstOfRole MessageRoleSystem reply)
  = normalized_spec reply.
Proof.
  unfold normalized_spec, dropFirstOfRole, MessageRoleUser, MessageRoleSystem.
  destruct reply as [|first rest]; [done|]. cbn.
  destruct (String.eqb_spec (Role first) "system") as [Hs|Hs];
    destruct (decide (Role first = "system")) as [Hd|Hd]; try tauto.
  - destruct rest as [|second rest]; [done|]. cbn.
    destruct (String.eqb_spec (Role second) "user");
      destruct (decide (Role second = "user")); tauto.
  - cbn.
    destruct (String.eqb_spec (Role first) "user");
      destruct (decide (Role first = "user")); tauto.
Qed.

Lemma dropFirstOfRole_keep role (first : Message) rest :
  Role first <> role ->
  dropFirstOfRole role (first :: rest) = first :: rest.
Proof.
  intros Hrole. unfold dropFirstOfRole. cbn.
  apply String.eqb_neq in Hrole. by rewrite Hrole.
Qed.

(** An error that leaves the loop body comes with [&Result{Success: false}]. *)
Lemma turn_error agent testStart iteration currentMessage agentDuration s st
    s' st' r e :
  turn agent testStart iteration currentMessage agentDuration s st
  = (s', st', Return (r, Some e)) ->
  r = Some failedResult.
Proof.
  unfold turn, callAgent, callTestingAgent, time_Since, time_Now.
  intros H. repeat case_match; by simplify_eq.
Qed.

Lemma turns_error agent testStart remaining iteration currentMessage
    agentDuration s st s' st' r e :
  turns agent testStart remaining iteration currentMessage agentDuration s st
  = (s', st', Returns (r, Some e)) ->
  r = Some failedResult.
Proof.
  revert iteration currentMessage agentDuration s st.
  induction remaining as [|remaining IH]; intros iteration currentMessage
    agentDuration s st; cbn [turns].
  - unfold time_Since, time_Now. by intros [=].
  - destruct (turn _ _ _ _ _ _ _) as [[s1 st1] [message duration|r1|]] eqn:Hturn.
    + apply IH.
    + intros [= <- <- ->]. by eapply turn_error.
    + done.
Qed.

(** C4 (as amended). Whenever Run returns a non-nil error, the Result
    returned with it is non-nil. It has Success false, except on the return
    that reports a verdict from the opening call to the testing agent:
    there the Result is the one that call produced, handed back as it is. *)
Theorem C4_error_returns_result s st s' st' r e :
  Run s st = (s', st', Returns (r, Some e)) ->
  exists result,
    r = Some result
    /\ (Success result = false
        \/ exists testingAgent w message,
             s_testingAgent s = Some testingAgent
             /\ GenerateNextMessage testingAgent (world st) (s_description s)
                  (s_strategy s) (s_successCriteria s) (s_failureCriteria s)
                  (s_conversation s) true false
                = (w, Returns (message, Some result, None))
             /\ e = Errorf_v "initial message generated a result which is unexpected"
                      result).
Proof.
  unfold Run. destruct (s_agent s) as [agent|];
    [|intros [= <- <- <- <-]; exists failedResult; by auto].
  unfold time_Now, callTestingAgent. cbn [world clock calls].
  destruct (s_testingAgent s) as [testingAgent|]; [|done].
  destruct (GenerateNextMessage _ _ _ _ _ _ _ _ _)
    as [w [[[message [result|]] [err|]]|]] eqn:Hopen; try done.
  - intros [= <- <- <- <-]. exists failedResult. by auto.
  - intros [= <- <- <- <-]. exists result. split; [done|]. right.
    by exists testingAgent, w, message.
  - intros [= <- <- <- <-]. exists failedResult. by auto.
  - intros Hturns. apply turns_error in Hturns as ->.
    exists failedResult. by auto.
Qed.

(** C6. In a pass through the loop in which the agent under test returns a
    non-empty reply without error, the conversation grows by the user
    message and then by the reply normalised: a first message of role
    system is dropped, then a first message of role user is dropped, and
    the messages that remain are appended as they are, in their order. It
    is this conversation that the testing agent is then called with. *)
Theorem C6_reply_normalized_before_recorded agent testStart iteration text
    agentDuration s st w reply :
  Agent_Run agent (world st) text = (w, Returns (reply, None)) ->
  reply <> [] ->
  let recorded :=
    s_conversation s ++ [mkMessage "user" text []] ++ normalized_spec reply in
  exists s' st' ending,
    turn agent testStart iteration (Some text) agentDuration s st
    = (s', st', ending)
    /\ s' = set_conversation s recorded
    /\ (forall testingAgent, s_testingAgent s = Some testingAgent ->
        exists lastMessage,
          calls st' = calls st ++
            [ CallAgent text;
              CallGenerate (s_description s) (s_strategy s) (s_successCriteria s)
                (s_failureCriteria s) recorded false lastMessage ]).
Proof.
  intros Hagent Hreply recorded.
  unfold turn, callAgent, time_Since, time_Now. cbn [world clock calls].
  rewrite Hagent.
  destruct reply as [|first rest]; [done|]. cbn [length Nat.eqb].
  rewrite dropFirstOfRole_normalized.
  cbn [s_conversation set_conversation s_testingAgent].
  rewrite set_conversation_twice, <- (assoc_L (++)). fold recorded.
  destruct (s_testingAgent s) as [testingAgent|] eqn:Hta.
  - unfold callTestingAgent.
    cbn [world clock calls s_conversation set_conversation s_description
         s_strategy s_successCriteria s_failureCriteria].
    destruct (GenerateNextMessage _ _ _ _ _ _ _ _ _)
      as [w2 [[[message [result|]] [err|]]|]];
      (do 3 eexists; split; [reflexivity|]; split; [reflexivity|];
       intros ? _; eexists; cbn [calls]; by rewrite <- (assoc_L (++))).
  - do 3 eexists. split; [reflexivity|]. split; [reflexivity|]. by intros.
Qed.

(** C8. With a non-positive maxTurns, the agent and the testing agent set,
    and an opening call that returns a message, Run makes no pass through
    the loop: the opening call is the only call made and the agent under
    test is not called. It returns, with a nil error, a Result with Success
    false, empty criteria lists, and the reasoning formatted with the
    configured maxTurns. *)
Theorem C8_nonpositive_maxTurns_runs_no_turn s st agent testingAgent w text :
  (s_maxTurns s <= 0)%Z ->
  s_agent s = Some agent ->
  s_testingAgent s = Some testingAgent ->
  GenerateNextMessage testingAgent (world st) (s_description s) (s_strategy s)
    (s_successCriteria s) (s_failureCriteria s) (s_conversation s) true false
  = (w, Returns (Some text, None, None)) ->
  exists st' result,
    Run s st = (s, st', Returns (Some result, None))
    /\ calls st' = calls st ++
         [CallGenerate (s_description s) (s_strategy s) (s_successCriteria s)
            (s_failureCriteria s) (s_conversation s) true false]
    /\ agentCalls (calls st') = agentCalls (calls st)
    /\ world st' = w
    /\ Success result = false
    /\ MetCriteria result = []
    /\ UnmetCriteria result = []
    /\ TriggeredFailures result = []
    /\ Reasoning result =
         "The conversation did not end in a failure after "
         +:+ itoa (s_maxTurns s) +:+ " turns.".
Proof.
  intros Hturns Hagent Htester Hopen.
  unfold Run, callTestingAgent, time_Now. rewrite Hagent, Htester.
  cbn [world clock calls]. rewrite Hopen.
  rewrite Z2Nat.nonpos by done. cbn [turns].
  unfold time_Since, time_Now. cbn [world clock calls].
  do 2 eexists. split; [reflexivity|]. cbn.
  repeat split; try done.
  unfold agentCalls. rewrite omap_app. cbn. by rewrite app_nil_r.
Qed.

Section NoVerdict.

Variables (agent : Agent W) (testingAgent : TestingAgent W).

(** The testing agent answers every call with a next-message text. *)
Hypothesis tester_continues :
  forall w description strategy successCriteria failureCriteria conversation
         firstMessage lastMessage,
  exists w' text,
    GenerateNextMessage testingAgent w description strategy successCriteria
      failureCriteria conversation firstMessage lastMessage
    = (w', Returns (Some text, None, None)).

(** The agent under test answers every call with one assistant message. *)
Hypothesis agent_replies_once :
  forall w message,
  exists w' reply,
    Agent_Run agent w message = (w', Returns ([reply], None))
    /\ Role reply = "assistant".

Lemma exchanges_length made : length (exchanges made) = (2 * length made)%nat.
Proof.
  unfold exchanges. induction made as [|turnMade made IH]; [done|].
  cbn [flat_map app length]. rewrite IH. lia.
Qed.

(** The loop without a verdict: every remaining pass is made, each adds a
    user message and the reply, and the turn budget's result is returned. *)
Lemma turns_without_verdict testStart remaining :
  forall iteration text agentDuration s st,
  s_testingAgent s = Some testingAgent ->
  exists st' made total duration,
    turns agent testStart remaining iteration (Some text) agentDuration s st
    = (set_conversation s (s_conversation s ++ exchanges made), st',
       Returns (Some (mkResult false (s_conversation s ++ exchanges made)
                        ("The conversation did not end in a failure after "
                         +:+ itoa (s_maxTurns s) +:+ " turns.")
                        [] [] [] total duration), None))
    /\ length made = remaining
    /\ Forall (fun turnMade => Role (snd turnMade) = "assistant") made
    /\ agentCalls (calls st') = agentCalls (calls st) ++ map fst made.
Proof.
  induction remaining as [|remaining IH];
    intros iteration text agentDuration s st Htester.
  - exists (snd (time_Since testStart st)), [].
    do 2 eexists. cbn [turns exchanges flat_map map length].
    unfold time_Since, time_Now. cbn [snd calls].
    rewrite !app_nil_r, set_conversation_same. by repeat split.
  - cbn [turns]. unfold turn, callAgent, time_Since, time_Now.
    cbn [world clock calls].
    destruct (agent_replies_once (world st) text) as (w1 & reply & -> & Hrole).
    cbn [length Nat.eqb].
    rewrite !dropFirstOfRole_keep by (by rewrite Hrole).
    cbn [s_testingAgent set_conversation]. rewrite Htester.
    unfold callTestingAgent.
    match goal with
    | |- context [GenerateNextMessage testingAgent ?w ?d ?g ?sc ?fc ?c ?f ?l] =>
        destruct (tester_continues w d g sc fc c f l) as (w2 & next & ->)
    end.
    match goal with
    | |- context [turns agent testStart remaining ?i (Some next) ?d ?s1 ?st1] =>
        destruct (IH i next d s1 st1 Htester)
          as (st' & made & total & duration & -> & Hlen & Hroles & Hcalls)
    end.
    exists st', ((text, reply) :: made), total, duration.
    cbn [s_conversation s_maxTurns set_conversation exchanges flat_map fst snd
         map length].
    rewrite <- !(assoc_L (++)). cbn [app].
    split; [done|]. split; [by rewrite Hlen|]. split; [by constructor|].
    rewrite Hcalls. cbn [calls]. unfold agentCalls.
    rewrite !omap_app. cbn. by rewrite <- !(assoc_L (++)).
Qed.

(** C5. A scenario configured with maxTurns N, N at least 1, whose testing
    agent always returns a next-message text and whose agent under test
    always returns one assistant message, runs to a nil error and a Result
    with Success false, a conversation of 2N messages made of a user
    message and then an assistant message for each of the N turns in the
    order of the turns, the reasoning "The conversation did not end in a
    failure after N turns." and three empty criteria lists. *)
Theorem C5_turn_budget_exhausted opts st (N : Z) :
  s_maxTurns (NewScenario opts) = N ->
  (1 <= N)%Z ->
  s_agent (NewScenario opts) = Some agent ->
  s_testingAgent (NewScenario opts) = Some testingAgent ->
  exists s' st' result made,
    Run (NewScenario opts) st = (s', st', Returns (Some result, None))
    /\ Success result = false
    /\ Z.of_nat (length (Conversation result)) = (2 * N)%Z
    /\ Conversation result = exchanges made
    /\ Z.of_nat (length made) = N
    /\ Forall (fun turnMade => Role (snd turnMade) = "assistant") made
    /\ agentCalls (calls st') = agentCalls (calls st) ++ map fst made
    /\ Reasoning result =
         "The conversation did not end in a failure after "
         +:+ itoa N +:+ " turns."
    /\ MetCriteria result = []
    /\ UnmetCriteria result = []
    /\ TriggeredFailures result = [].
Proof.
  intros HN Hpos Hagent Htester.
  unfold Run, callTestingAgent, time_Now. rewrite Hagent, Htester.
  cbn [world clock calls].
  match goal with
  | |- context [GenerateNextMessage testingAgent ?w ?d ?g ?sc ?fc ?c ?f ?l] =>
      destruct (tester_continues w d g sc fc c f l) as (w1 & text & ->)
  end.
  match goal with
  | |- context [turns agent ?t0 ?n ?i (Some text) ?d ?s1 ?st1] =>
      destruct (turns_without_verdict t0 n i text d s1 st1 Htester)
        as (st' & made & total & duration & -> & Hlen & Hroles & Hcalls)
  end.
  rewrite NewScenario_conversation, HN in *. cbn [app] in *.
  do 4 eexists. split; [reflexivity|]. cbn [Success Conversation Reasoning
    MetCriteria UnmetCriteria TriggeredFailures].
  repeat split; try done.
  - rewrite exchanges_length, Hlen. lia.
  - rewrite Hlen. lia.
  - rewrite Hcalls. cbn [calls]. unfold agentCalls. rewrite omap_app.
    cbn. by rewrite app_nil_r.
Qed.

End NoVerdict.

End EngineFacts.

(** ** The statements on the examples *)

(** C3: the claim as worded fails. A details map without the key
    met_criteria does not give an empty array for it: the extraction is a
    parse error, and so is the whole finish_test call. *)
Lemma C3_absent_key_is_parse_error :
  detailsWithoutMet !! "met_criteria" = None
  /\ extractStringArray detailsWithoutMet "met_criteria"
     = Err (errors_New "met_criteria not found")
  /\ extractFinishTestParams
       (finishTestCall (verdictArguments "success" detailsWithoutMet))
     = Returns (Err (errors_New "met_criteria not found"))
  /\ ~ (exists p,
         extractFinishTestParams
           (finishTestCall (verdictArguments "success" detailsWithoutMet))
         = Returns (Ok p)
         /\ metCriteria p = []).
Proof.
  assert (Herr : extractFinishTestParams
            (finishTestCall (verdictArguments "success" detailsWithoutMet))
          = Returns (Err (errors_New "met_criteria not found")))
    by (by vm_compute).
  split; [by vm_compute|]. split; [by vm_compute|]. split; [exact Herr|].
  intros (p & Hp & _). rewrite Herr in Hp. discriminate Hp.
Qed.

(** C4: the claim as worded fails. When the backend answers the opening
    request with a finish_test call of verdict success, Run returns a
    non-nil error together with a Result whose Success is true. *)
Lemma C4_error_with_successful_result :
  exists s' st' result e,
    Run verdictFirstScenario (startState []) = (s', st', Returns (Some result, Some e))
    /\ Success result = true.
Proof. do 4 eexists. split; [reflexivity|reflexivity]. Qed.

(** C2 on a finish_test call with the verdict inconclusive. *)
Lemma C2_verdict_mapping_total_witness :
  snd (testingAgent_GenerateNextMessage sampleMarshalIndent
         (sampleTestingAgent (toolCallAnswer ""
            (finishTestCall (verdictArguments "inconclusive" fullDetails))))
         [] "d" "s" ["greets"] [] sampleConversation false true)
  = Returns (None,
             Some (mkResult false sampleConversation "because" ["greets"]
                     ["books a table"] [] 0 0),
             None).
Proof.
  edestruct (C2_verdict_mapping_total sampleMarshalIndent
               (sampleTestingAgent (toolCallAnswer ""
                  (finishTestCall (verdictArguments "inconclusive" fullDetails))))
               [] "d" "s" ["greets"] [] sampleConversation false true)
    as (r & Hrun & _ & _ & Hother & _);
    [reflexivity|reflexivity|reflexivity|reflexivity|reflexivity|reflexivity
    |reflexivity|reflexivity|].
  rewrite Hrun. cbn [snd]. rewrite Hother; [reflexivity|discriminate|discriminate].
Defined.

(** C3 on a details map holding the three accepted shapes. *)
Lemma C3_criteria_arrays_extracted_witness :
  extractFinishTestParams (finishTestCall (verdictArguments "failure" fullDetails))
  = Returns (Ok (mkFinishTestParams "failure" "because" ["greets"]
                   ["books a table"] [])).
Proof.
  edestruct (C3_criteria_arrays_extracted
               (finishTestCall (verdictArguments "failure" fullDetails))
               (mkToolCallFunction "finish_test"
                  (verdictArguments "failure" fullDetails))
               "failure" "because" fullDetails)
    as [Hshape _]; [reflexivity|reflexivity|reflexivity|reflexivity|].
  exact Hshape.
Defined.

(** C4 on a scenario without an agent. *)
Lemma C4_error_returns_result_witness :
  Run (W := unit) (NewScenario []) (startState ())
  = (NewScenario [], startState (),
     Returns (Some failedResult, Some (errors_New "agent not set")))
  /\ exists result, Some failedResult = Some result /\ Success result = false.
Proof.
  split; [reflexivity|].
  destruct (C4_error_returns_result (W := unit) (NewScenario []) (startState ())
              (NewScenario []) (startState ()) (Some failedResult)
              (errors_New "agent not set") eq_refl)
    as (result & Hresult & [Hfalse|(testingAgent & _ & _ & Hset & _)]).
  - by exists result.
  - discriminate Hset.
Defined.

(** C5 on three turns of the echoing agent. *)
Lemma C5_turn_budget_exhausted_witness :
  exists s' st' result,
    Run (NewScenario [ WithAgent (Some echoAgent);
                       WithTestingAgent (Some countingTester);
                       WithMaxTurns 3 ]) (startState 0%nat)
    = (s', st', Returns (Some result, None))
    /\ length (Conversation result) = 6%nat
    /\ Reasoning result = "The conversation did not end in a failure after 3 turns.".
Proof.
  destruct (C5_turn_budget_exhausted echoAgent countingTester
              (fun w _ _ _ _ _ _ _ => ex_intro _ (S w) (ex_intro _ _ eq_refl))
              (fun w message => ex_intro _ w (ex_intro _ _ (conj eq_refl eq_refl)))
              [ WithAgent (Some echoAgent);
                WithTestingAgent (Some countingTester);
                WithMaxTurns 3 ] (startState 0%nat) 3 eq_refl ltac:(lia)
              eq_refl eq_refl)
    as (s' & st' & result & made & Hrun & _ & Hlen & _ & _ & _ & _ & Hreason & _).
  exists s', st', result. split; [exact Hrun|]. split; [lia|exact Hreason].
Defined.

(** C6 on a reply that opens with a system and a user message. *)
Lemma C6_reply_normalized_before_recorded_witness :
  exists s' st' ending,
    turn framingAgent 0 0 (Some "hi") 0
      (NewScenario [ WithAgent (Some framingAgent);
                     WithTestingAgent (Some countingTester) ]) (startState 0%nat)
    = (s', st', ending)
    /\ s_conversation s'
       = [mkMessage "user" "hi" []; mkMessage "assistant" "done" []].
Proof.
  edestruct (C6_reply_normalized_before_recorded framingAgent 0 0 "hi" 0
               (NewScenario [ WithAgent (Some framingAgent);
                              WithTestingAgent (Some countingTester) ])
               (startState 0%nat))
    as (s' & st' & ending & Hturn & Hs & _); [reflexivity|discriminate|].
  exists s', st', ending. split; [exact Hturn|]. rewrite Hs. reflexivity.
Defined.

(** C7 on a backend that answers with text. *)
Lemma C7_exactly_one_of_text_and_result_witness :
  exists w',
    testingAgent_GenerateNextMessage sampleMarshalIndent
      (sampleTestingAgent (textAnswer "ok")) [] "d" "s" [] [] sampleConversation
      false false
    = (w', Returns (Some "ok", None, None))
    /\ ((Some "ok" <> None /\ @None Result = None)
        \/ (Some "ok" = @None string /\ @None Result <> None)).
Proof.
  eexists. split; [reflexivity|].
  eapply (C7_exactly_one_of_text_and_result sampleMarshalIndent
            (sampleTestingAgent (textAnswer "ok")) [] "d" "s" [] []
            sampleConversation false false).
  reflexivity.
Defined.

(** C8 on maxTurns -5. *)
Lemma C8_nonpositive_maxTurns_runs_no_turn_witness :
  exists st' result,
    Run (NewScenario [ WithAgent (Some echoAgent);
                       WithTestingAgent (Some countingTester);
                       WithMaxTurns (-5) ]) (startState 0%nat)
    = (NewScenario [ WithAgent (Some echoAgent);
                     WithTestingAgent (Some countingTester);
                     WithMaxTurns (-5) ], st', Returns (Some result, None))
    /\ agentCalls (calls st') = []
    /\ Success result = false
    /\ Reasoning result = "The conversation did not end in a failure after -5 turns.".
Proof.
  edestruct (C8_nonpositive_maxTurns_runs_no_turn
               (NewScenario [ WithAgent (Some echoAgent);
                              WithTestingAgent (Some countingTester);
                              WithMaxTurns (-5) ]) (startState 0%nat))
    as (st' & result & Hrun & _ & Hcalls & _ & Hfalse & _ & _ & _ & Hreason);
    [vm_compute; discriminate|reflexivity|reflexivity|reflexivity|].
  exists st', result. split; [exact Hrun|]. split; [exact Hcalls|].
  split; [exact Hfalse|exact Hreason].
Defined.

(** C9 on a success verdict given on the last message. *)
Lemma C9_result_conversation_is_argument_witness :
  exists w' r,
    testingAgent_GenerateNextMessage sampleMarshalIndent
      (sampleTestingAgent (toolCallAnswer ""
         (finishTestCall (verdictArguments "success" fullDetails))))
      [] "d" "s" [] [] sampleConversation false true
    = (w', Returns (None, Some r, None))
    /\ Conversation r = sampleConversation.
Proof.
  do 2 eexists. split; [reflexivity|].
  eapply (C9_result_conversation_is_argument sampleMarshalIndent
            (sampleTestingAgent (toolCallAnswer ""
               (finishTestCall (verdictArguments "success" fullDetails))))
            [] "d" "s" [] [] sampleConversation false true).
  reflexivity.
Defined.

(** C10 on a call of another function that comes with content. *)
Lemma C10_other_function_falls_through_witness :
  snd (testingAgent_GenerateNextMessage sampleMarshalIndent
         (sampleTestingAgent (toolCallAnswer "what are your opening hours"
            (mkToolCall "call_2" ToolTypeFunction
               (Some (mkToolCallFunction "lookup_hours" ∅)))))
         [] "d" "s" [] [] sampleConversation false false)
  = Returns (Some "what are your opening hours", None, None).
Proof.
  edestruct (C10_other_function_falls_through sampleMarshalIndent
               (sampleTestingAgent (toolCallAnswer "what are your opening hours"
                  (mkToolCall "call_2" ToolTypeFunction
                     (Some (mkToolCallFunction "lookup_hours" ∅)))))
               [] "d" "s" [] [] sampleConversation false false)
    as [Htext _];
    [reflexivity|reflexivity|reflexivity|reflexivity|reflexivity|reflexivity
    |discriminate|].
  rewrite Htext; [reflexivity|discriminate].
Defined.

(** ** More on the options *)

Section OptionFacts.

Context {W : Type}.

Implicit Types (s : scenario W) (opt : ScenarioOption W)
  (opts : list (ScenarioOption W)).

Lemma lastSet_fold {A} (get : scenario W -> A)
    (set : ScenarioOption W -> option A) :
  (forall opt s, get (applyOption opt s) = from_option id (get s) (set opt)) ->
  forall opts s,
    get (fold_left (fun s opt => applyOption opt s) opts s)
    = lastSet set (get s) opts.
Proof.
  intros Hget. induction opts as [|opt opts IH]; intros s; [done|].
  cbn [fold_left]. rewrite IH, Hget. unfold lastSet. cbn [omap].
  destruct (set opt) as [x|] eqn:Hset; cbn; rewrite Hset; [|done].
  rewrite last_cons. by destruct (last _).
Qed.

(** Two options that write different fields can be exchanged, and of two
    options that write the same field the one applied last wins. *)
Lemma applyOption_compose opt1 opt2 s :
  applyOption opt1 (applyOption opt2 s)
  = if decide (optionField opt1 = optionField opt2)
    then applyOption opt1 s
    else applyOption opt2 (applyOption opt1 s).
Proof. by destruct opt1, opt2. Qed.

Lemma fold_options_permutation opts opts' :
  opts ≡ₚ opts' ->
  NoDup (optionField <$> opts) ->
  forall s,
    fold_left (fun s opt => applyOption opt s) opts s
    = fold_left (fun s opt => applyOption opt s) opts' s.
Proof.
  induction 1 as [|opt opts opts' Hperm IH|opt1 opt2 opts|opts1 opts2 opts3 H12 IH12 H23 IH23];
    intros Hfields s.
  - done.
  - cbn [fold_left]. apply IH. by inversion Hfields.
  - cbn [fold_left]. f_equal. rewrite applyOption_compose.
    case_decide as Hsame; [|done].
    rewrite !fmap_cons in Hfields. apply NoDup_cons in Hfields as [Hnot _].
    exfalso. apply Hnot. rewrite Hsame. by left.
  - rewrite IH12 by done. apply IH23. by rewrite <- H12.
Qed.

(** X1. Each field of a new scenario holds the value of the last option
    that sets it, as it was given (criteria lists with their order,
    duplicates and empty strings), or the default when no option sets it:
    the empty description, the default strategy, no agent, no testing
    agent, empty criteria, 10 turns. No option fills the conversation. *)
Theorem NewScenario_fields opts :
  s_description (NewScenario opts) = lastSet descriptionSet "" opts
  /\ s_strategy (NewScenario opts)
     = lastSet strategySet
         "Start with a first message and guide the conversation to play out the scenario."
         opts
  /\ s_agent (NewScenario opts) = lastSet agentSet None opts
  /\ s_testingAgent (NewScenario opts) = lastSet testingAgentSet None opts
  /\ s_successCriteria (NewScenario opts) = lastSet successCriteriaSet [] opts
  /\ s_failureCriteria (NewScenario opts) = lastSet failureCriteriaSet [] opts
  /\ s_maxTurns (NewScenario opts) = lastSet maxTurnsSet 10%Z opts
  /\ s_conversation (NewScenario opts) = [].
Proof.
  unfold NewScenario.
  split; [by apply (lastSet_fold s_description descriptionSet); intros []|].
  split; [by apply (lastSet_fold s_strategy strategySet); intros []|].
  split; [by apply (lastSet_fold s_agent agentSet); intros []|].
  split; [by apply (lastSet_fold s_testingAgent testingAgentSet); intros []|].
  split; [by apply (lastSet_fold s_successCriteria successCriteriaSet); intros []|].
  split; [by apply (lastSet_fold s_failureCriteria failureCriteriaSet); intros []|].
  split; [by apply (lastSet_fold s_maxTurns maxTurnsSet); intros []|].
  apply fold_options_conversation.
Qed.

(** X2. Options that set pairwise different fields can be given in any
    order: the scenario is the same. *)
Theorem NewScenario_order_independent opts opts' :
  NoDup (optionField <$> opts) ->
  opts ≡ₚ opts' ->
  NewScenario opts = NewScenario opts'.
Proof.
  intros Hfields Hperm. unfold NewScenario.
  by apply fold_options_permutation.
Qed.

End OptionFacts.

(** ** More on the engine *)

Section RunFacts.

Context {W : Type}.

Implicit Types (s : scenario W) (st : State W) (agent : Agent W)
  (testingAgent : TestingAgent W).

Lemma wrap64_small (z : Z) :
  (- 2 ^ 63 <= z < 2 ^ 63)%Z -> wrap64 z = z.
Proof. intros Hz. unfold wrap64. rewrite Z.mod_small; lia. Qed.

(** The loop body with its states written out: the scenario after the
    user message and after the reply, the clock after each reading, the
    calls after each call. *)
Lemma turn_unfold agent testStart iteration text agentDuration s st :
  turn agent testStart iteration (Some text) agentDuration s st =
  let s1 := set_conversation s (s_conversation s ++ [mkMessage "user" text []]) in
  let cs := calls st ++ [CallAgent text] in
  match Agent_Run agent (world st) text with
  | (w1, Panics) => (s1, mkState w1 (fun n => clock st (S n)) cs, Panic)
  | (w1, Returns (_, Some err)) =>
      (s1, mkState w1 (fun n => clock st (S n)) cs,
       Return (Some failedResult, Some (Errorf_w "failed to run agent" err)))
  | (w1, Returns (reply, None)) =>
      if (length reply =? 0)%nat
      then (s1, mkState w1 (fun n => clock st (S n)) cs,
            Return (Some failedResult,
                    Some (errors_New "no messages returned from agent")))
      else
        let s2 := set_conversation s
                    (s_conversation s ++ [mkMessage "user" text []]
                     ++ normalized_spec reply) in
        let elapsed :=
          Z.max (- 2 ^ 63) (Z.min (2 ^ 63 - 1) (clock st 1%nat - clock st 0%nat)) in
        let agentDuration' := wrap64 (agentDuration + elapsed) in
        let lastIteration := (iteration =? wrap64 (s_maxTurns s - 1))%Z in
        match s_testingAgent s with
        | None => (s2, mkState w1 (fun n => clock st (S (S n))) cs, Panic)
        | Some testingAgent =>
            let cs' := cs ++ [CallGenerate (s_description s) (s_strategy s)
                                (s_successCriteria s) (s_failureCriteria s)
                                (s_conversation s2) false lastIteration] in
            match GenerateNextMessage testingAgent w1 (s_description s)
                    (s_strategy s) (s_successCriteria s) (s_failureCriteria s)
                    (s_conversation s2) false lastIteration with
            | (w2, Panics) =>
                (s2, mkState w2 (fun n => clock st (S (S n))) cs', Panic)
            | (w2, Returns (_, _, Some err)) =>
                (s2, mkState w2 (fun n => clock st (S (S n))) cs',
                 Return (Some failedResult,
                         Some (Errorf_w "failed to generate next message" err)))
            | (w2, Returns (_, Some result, None)) =>
                (s2, mkState w2 (fun n => clock st (S (S (S n)))) cs',
                 Return (Some (mkResult (Success result) (Conversation result)
                                 (Reasoning result) (MetCriteria result)
                                 (UnmetCriteria result) (TriggeredFailures result)
                                 (Z.max (- 2 ^ 63)
                                    (Z.min (2 ^ 63 - 1) (clock st 2%nat - testStart)))
                                 agentDuration'), None))
            | (w2, Returns (nextMessage, None, None)) =>
                (s2, mkState w2 (fun n => clock st (S (S n))) cs',
                 Continue nextMessage agentDuration')
            end
        end
  end.
Proof.
  unfold turn, callAgent, time_Since, time_Now. cbn [world clock calls].
  destruct (Agent_Run agent (world st) text) as [w1 [[reply [err|]]|]];
    [done| |done].
  destruct (length reply =? 0)%nat; [done|].
  rewrite dropFirstOfRole_normalized.
  cbn [s_conversation set_conversation s_testingAgent].
  rewrite set_conversation_twice, <- (assoc_L (++)).
  destruct (s_testingAgent s) as [testingAgent|]; [|done].
  unfold callTestingAgent.
  cbn [world clock calls s_conversation set_conversation s_description
       s_strategy s_successCriteria s_failureCriteria s_maxTurns].
  by destruct (GenerateNextMessage _ _ _ _ _ _ _ _ _)
    as [w2 [[[message [result|]] [err|]]|]].
Qed.

Lemma calls_mkState (w : W) clock cs : calls (mkState w clock cs) = cs.
Proof. done. Qed.

(** What one pass through the loop body does to the scenario and to the
    list of calls. *)
Lemma turn_shape agent testStart iteration currentMessage agentDuration s st
    s' st' ending :
  turn agent testStart iteration currentMessage agentDuration s st
  = (s', st', ending) ->
  exists added new,
    s' = set_conversation s (s_conversation s ++ added)
    /\ calls st' = calls st ++ new
    /\ ((new = [] /\ ending = Panic)
        \/ (exists text, new = [CallAgent text]
              /\ (ending = Panic
                  \/ exists err, ending = Return (Some failedResult, Some err)))
        \/ (exists text, new =
              [ CallAgent text;
                CallGenerate (s_description s) (s_strategy s)
                  (s_successCriteria s) (s_failureCriteria s)
                  (s_conversation s') false
                  (iteration =? wrap64 (s_maxTurns s - 1))%Z ])).
Proof.
  destruct currentMessage as [text|];
    [|intros [= <- <- <-]; exists [], [];
      rewrite !app_nil_r, set_conversation_same; by eauto].
  rewrite turn_unfold. cbn zeta.
  destruct (Agent_Run agent (world st) text) as [w1 [[reply [err|]]|]].
  - intros [= <- <- <-]. eexists [_], [CallAgent text]. by eauto 10.
  - destruct (length reply =? 0)%nat;
      [intros [= <- <- <-]; eexists [_], [CallAgent text]; by eauto 10|].
    destruct (s_testingAgent s) as [testingAgent|];
      [|intros [= <- <- <-]; eexists (_ :: _), [CallAgent text]; by eauto 10].
    destruct (GenerateNextMessage _ _ _ _ _ _ _ _ _)
      as [w2 [[[message [result|]] [err|]]|]];
      intros [= <- <- <-]; eexists (_ :: _), _;
      (split; [reflexivity|]); cbn [calls]; rewrite <- (assoc_L (++));
      (split; [reflexivity|]); right; right; by eexists.
  - intros [= <- <- <-]. eexists [_], [CallAgent text]. by eauto 10.
Qed.

Lemma agentCalls_app (cs1 cs2 : list Call) :
  agentCalls (cs1 ++ cs2) = agentCalls cs1 ++ agentCalls cs2.
Proof. apply omap_app. Qed.

Lemma generateCalls_app (cs1 cs2 : list Call) :
  generateCalls (cs1 ++ cs2) = generateCalls cs1 ++ generateCalls cs2.
Proof. apply omap_app. Qed.

(** What the loop does to the scenario and to the list of calls. *)
Lemma turns_shape agent testStart remaining :
  forall iteration currentMessage agentDuration s st s' st' out,
  turns agent testStart remaining iteration currentMessage agentDuration s st
  = (s', st', out) ->
  exists added new,
    s' = set_conversation s (s_conversation s ++ added)
    /\ calls st' = calls st ++ new
    /\ (length (agentCalls new) <= remaining)%nat
    /\ (length (generateCalls new) <= length (agentCalls new))%nat
    /\ ((- 2 ^ 63 <= s_maxTurns s < 2 ^ 63)%Z -> (0 <= iteration)%Z ->
        (iteration + Z.of_nat remaining = s_maxTurns s)%Z ->
        turnCalls (s_description s) (s_strategy s) (s_successCriteria s)
          (s_failureCriteria s) (s_maxTurns s) iteration new).
Proof.
  induction remaining as [|remaining IH];
    intros iteration currentMessage agentDuration s st s' st' out; cbn [turns].
  - unfold time_Since, time_Now. intros [= <- <- <-]. exists [], [].
    rewrite !app_nil_r, set_conversation_same. cbn. by repeat split.
  - destruct (turn _ _ _ _ _ _ _) as [[s1 st1] ending] eqn:Hturn.
    destruct (turn_shape _ _ _ _ _ _ _ _ _ _ Hturn)
      as (added1 & new1 & Hs1 & Hcalls1 & Hnew1).
    assert (Hlast : (- 2 ^ 63 <= s_maxTurns s < 2 ^ 63)%Z -> (0 <= iteration)%Z ->
              (iteration + Z.of_nat (S remaining) = s_maxTurns s)%Z ->
              (iteration =? wrap64 (s_maxTurns s - 1))%Z
              = bool_decide (iteration = s_maxTurns s - 1)%Z).
    { intros Hint Hpos Hsum. rewrite wrap64_small by lia.
      case_bool_decide; lia. }
    destruct ending as [nextMessage agentDuration'|r|].
    + destruct Hnew1 as [[_ [=]]|[(text & _ & [[=]|(err & [=])])|(text & Hnew1)]].
      intros Hturns.
      destruct (IH _ _ _ _ _ _ _ _ Hturns)
        as (added2 & new2 & -> & Hcalls2 & Hagent & Hgenerate & Hprotocol).
      subst s1. exists (added1 ++ added2), (new1 ++ new2).
      rewrite set_conversation_twice. cbn [s_conversation set_conversation].
      rewrite Hcalls2, Hcalls1, <- !(assoc_L (++)).
      split; [done|]. split; [done|].
      rewrite agentCalls_app, generateCalls_app, !length_app.
      rewrite Hnew1. cbn.
      split; [lia|]. split; [lia|].
      intros Hint Hpos Hsum.
      split; [lia|]. rewrite Hlast by done.
      repeat (split; [done|]).
      apply Hprotocol; cbn [s_maxTurns set_conversation]; lia.
    + intros [= <- <- <-]. exists added1, new1.
      split; [done|]. split; [done|].
      destruct Hnew1 as [[_ [=]]|[(text & -> & _)|(text & ->)]]; cbn.
      * split; [lia|]. split; [lia|]. intros. split; [lia|done].
      * split; [lia|]. split; [lia|]. intros Hint Hpos Hsum.
        split; [lia|]. rewrite Hlast by done. by repeat (split; [done|]).
    + intros [= <- <- <-]. exists added1, new1.
      split; [done|]. split; [done|].
      destruct Hnew1 as [[-> _]|[(text & -> & _)|(text & ->)]]; cbn.
      * split; [lia|]. split; [lia|]. done.
      * split; [lia|]. split; [lia|]. intros. split; [lia|done].
      * split; [lia|]. split; [lia|]. intros Hint Hpos Hsum.
        split; [lia|]. rewrite Hlast by done. by repeat (split; [done|]).
Qed.

(** The same for a run: the calls are none at all, or the opening call
    followed by the calls of the loop. *)
Lemma Run_shape s st :
  exists added new,
    (Run s st).1.1 = set_conversation s (s_conversation s ++ added)
    /\ calls (Run s st).1.2 = calls st ++ new
    /\ (new = []
        \/ exists rest,
             new = CallGenerate (s_description s) (s_strategy s)
                     (s_successCriteria s) (s_failureCriteria s)
                     (s_conversation s) true false :: rest
             /\ (length (agentCalls rest) <= Z.to_nat (s_maxTurns s))%nat
             /\ (length (generateCalls rest) <= length (agentCalls rest))%nat
             /\ ((- 2 ^ 63 <= s_maxTurns s < 2 ^ 63)%Z ->
                 turnCalls (s_description s) (s_strategy s) (s_successCriteria s)
                   (s_failureCriteria s) (s_maxTurns s) 0 rest)).
Proof.
  unfold Run.
  destruct (s_agent s) as [agent|];
    [|exists [], []; cbn; rewrite !app_nil_r, set_conversation_same; by auto].
  unfold time_Now, callTestingAgent. cbn [world clock calls].
  destruct (s_testingAgent s) as [testingAgent|];
    [|exists [], []; cbn; rewrite !app_nil_r, set_conversation_same; by auto].
  destruct (GenerateNextMessage _ _ _ _ _ _ _ _ _)
    as [w [[[message [result|]] [err|]]|]].
  1-3, 5: eexists [], [_]; cbn [fst snd calls];
    rewrite !app_nil_r, set_conversation_same;
    (split; [done|]); (split; [done|]); right; eexists; (split; [done|]);
    cbn; (split; [lia|]); by (split; [lia|]).
  destruct (turns _ _ _ _ _ _ _ _) as [[s' st'] out] eqn:Hturns.
  destruct (turns_shape _ _ _ _ _ _ _ _ _ _ _ Hturns)
    as (added & new & -> & Hcalls & Hagent & Hgenerate & Hprotocol).
  eexists added, (_ :: new). cbn [fst snd calls] in *.
  rewrite Hcalls, <- (assoc_L (++)).
  split; [done|]. split; [done|]. right. eexists. split; [done|].
  split; [done|]. split; [done|].
  intros Hint.
  destruct (decide (0 <= s_maxTurns s)%Z) as [Hpos|Hneg].
  - apply Hprotocol; [done|done|]. rewrite Z2Nat.id; lia.
  - rewrite Z2Nat.nonpos in Hagent by lia.
    destruct new as [|[] new]; cbn in *; try done; lia.
Qed.

(** X3. A run changes nothing of the scenario but its conversation, and
    the conversation only grows at its end: what it held before the run
    is kept, whatever way the run ends. *)
Theorem Run_only_appends_to_conversation s st :
  exists added,
    (Run s st).1.1 = set_conversation s (s_conversation s ++ added).
Proof.
  destruct (Run_shape s st) as (added & new & Hs & _). by exists added.
Qed.

(** X4. A run calls the agent under test at most maxTurns times (never
    for a non-positive maxTurns), and the testing agent at most once more
    than the agent under test. *)
Theorem Run_call_budget s st :
  exists new,
    calls (Run s st).1.2 = calls st ++ new
    /\ (length (agentCalls new) <= Z.to_nat (s_maxTurns s))%nat
    /\ (length (generateCalls new) <= S (length (agentCalls new)))%nat.
Proof.
  destruct (Run_shape s st)
    as (added & new & _ & Hcalls & [->|(rest & -> & Hagent & Hgenerate & _)]);
    eexists; (split; [exact Hcalls|]); unfold agentCalls, generateCalls in *;
    cbn [omap list_omap length]; lia.
Qed.

(** X5. The calls of a run follow the turn protocol: first the testing
    agent, as first and not last message, on the conversation the scenario
    holds; then, turn by turn, the agent under test and the testing agent,
    which is given the configured description, strategy and criteria, is
    never again told that the message is the first, and is told that it
    is the last exactly on turn maxTurns. *)
Theorem Run_call_protocol s st :
  (- 2 ^ 63 <= s_maxTurns s < 2 ^ 63)%Z ->
  exists new,
    calls (Run s st).1.2 = calls st ++ new
    /\ (new = []
        \/ exists rest,
             new = CallGenerate (s_description s) (s_strategy s)
                     (s_successCriteria s) (s_failureCriteria s)
                     (s_conversation s) true false :: rest
             /\ turnCalls (s_description s) (s_strategy s) (s_successCriteria s)
                  (s_failureCriteria s) (s_maxTurns s) 0 rest).
Proof.
  intros Hint.
  destruct (Run_shape s st)
    as (added & new & _ & Hcalls & [->|(rest & -> & _ & _ & Hprotocol)]);
    eexists; (split; [exact Hcalls|]); [by left|right].
  eexists. split; [done|]. by apply Hprotocol.
Qed.

(** X6. Without an agent under test, the run fails at once with "agent
    not set" and the bare failed Result: no collaborator is called, the
    clock is not read and the scenario is left as it was, also when no
    testing agent is set. *)
Theorem Run_without_agent s st :
  s_agent s = None ->
  Run s st = (s, st, Returns (Some failedResult, Some (errors_New "agent not set"))).
Proof. intros Hagent. unfold Run. by rewrite Hagent. Qed.

(** X7. With an agent under test but no testing agent, the run does not
    return an error: it panics on the opening call, before any
    collaborator is called. *)
Theorem Run_without_testing_agent s st agent :
  s_agent s = Some agent ->
  s_testingAgent s = None ->
  exists st',
    Run s st = (s, st', Panics) /\ calls st' = calls st /\ world st' = world st.
Proof.
  intros Hagent Htester. unfold Run, time_Now. rewrite Hagent, Htester.
  eexists. split; [reflexivity|done].
Qed.

(** X8. An error of the opening call ends the run before the first turn:
    the error is returned wrapped as "failed to generate initial message",
    with the bare failed Result, also when the call returned a message or
    a result beside the error; the agent under test is not called and the
    conversation is unchanged. *)
Theorem Run_opening_error s st agent testingAgent w message result err :
  s_agent s = Some agent ->
  s_testingAgent s = Some testingAgent ->
  GenerateNextMessage testingAgent (world st) (s_description s) (s_strategy s)
    (s_successCriteria s) (s_failureCriteria s) (s_conversation s) true false
  = (w, Returns (message, result, Some err)) ->
  exists st',
    Run s st = (s, st', Returns (Some failedResult,
                  Some (Errorf_w "failed to generate initial message" err)))
    /\ world st' = w
    /\ calls st' = calls st ++
         [CallGenerate (s_description s) (s_strategy s) (s_successCriteria s)
            (s_failureCriteria s) (s_conversation s) true false].
Proof.
  intros Hagent Htester Hopen.
  unfold Run, callTestingAgent, time_Now. rewrite Hagent, Htester.
  cbn [world clock calls]. rewrite Hopen.
  destruct result; (eexists; split; [reflexivity|done]).
Qed.

(** X9. When the opening call returns neither a message nor a result nor
    an error, a run with a positive maxTurns panics on the nil message
    before the agent under test is called, while a run with a
    non-positive maxTurns returns the turn-budget Result. *)
Theorem Run_nil_opening_message s st agent testingAgent w :
  s_agent s = Some agent ->
  s_testingAgent s = Some testingAgent ->
  GenerateNextMessage testingAgent (world st) (s_description s) (s_strategy s)
    (s_successCriteria s) (s_failureCriteria s) (s_conversation s) true false
  = (w, Returns (None, None, None)) ->
  exists st',
    (Run s st).1 = (s, st')
    /\ agentCalls (calls st') = agentCalls (calls st)
    /\ ((1 <= s_maxTurns s)%Z -> (Run s st).2 = Panics)
    /\ ((s_maxTurns s <= 0)%Z ->
        exists result, (Run s st).2 = Returns (Some result, None)
                       /\ Success result = false
                       /\ Conversation result = s_conversation s).
Proof.
  intros Hagent Htester Hopen.
  unfold Run, callTestingAgent, time_Now. rewrite Hagent, Htester.
  cbn [world clock calls]. rewrite Hopen.
  destruct (Z.to_nat (s_maxTurns s)) as [|remaining] eqn:Hturns; cbn [turns turn].
  - unfold time_Since, time_Now. cbn [fst snd world clock calls].
    eexists. split; [reflexivity|]. cbn [calls].
    rewrite agentCalls_app. cbn. rewrite app_nil_r. split; [done|].
    split; [lia|]. intros _. by eexists.
  - cbn [fst snd]. eexists. split; [reflexivity|]. cbn [calls].
    rewrite agentCalls_app. cbn. rewrite app_nil_r. split; [done|].
    split; [done|]. lia.
Qed.

Lemma Run_first_turn s st agent testingAgent w1 text :
  (1 <= s_maxTurns s)%Z ->
  s_agent s = Some agent ->
  s_testingAgent s = Some testingAgent ->
  GenerateNextMessage testingAgent (world st) (s_description s) (s_strategy s)
    (s_successCriteria s) (s_failureCriteria s) (s_conversation s) true false
  = (w1, Returns (Some text, None, None)) ->
  Run s st =
    match turn agent (clock st 0%nat) 0 (Some text) 0 s
            (mkState w1 (fun n => clock st (S n))
               (calls st ++
                [CallGenerate (s_description s) (s_strategy s)
                   (s_successCriteria s) (s_failureCriteria s)
                   (s_conversation s) true false])) with
    | (s', st', Panic) => (s', st', Panics)
    | (s', st', Return r) => (s', st', Returns r)
    | (s', st', Continue currentMessage agentDuration) =>
        turns agent (clock st 0%nat) (Z.to_nat (s_maxTurns s) - 1) 1
          currentMessage agentDuration s' st'
    end.
Proof.
  intros Hturns Hagent Htester Hopen.
  unfold Run, callTestingAgent, time_Now. rewrite Hagent, Htester.
  cbn [world clock calls]. rewrite Hopen.
  destruct (Z.to_nat (s_maxTurns s)) as [|remaining] eqn:Hnat; [lia|].
  cbn [turns]. by replace (S remaining - 1)%nat with remaining by lia.
Qed.

(** X10. When the agent under test fails on the first turn, the run
    returns its error wrapped as "failed to run agent" with the bare
    failed Result, whose conversation is empty, although the scenario by
    then holds the user message of the turn; the testing agent is not
    called again. *)
Theorem Run_agent_error s st agent testingAgent w1 text w2 reply err :
  (1 <= s_maxTurns s)%Z ->
  s_agent s = Some agent ->
  s_testingAgent s = Some testingAgent ->
  GenerateNextMessage testingAgent (world st) (s_description s) (s_strategy s)
    (s_successCriteria s) (s_failureCriteria s) (s_conversation s) true false
  = (w1, Returns (Some text, None, None)) ->
  Agent_Run agent w1 text = (w2, Returns (reply, Some err)) ->
  exists st',
    Run s st =
      (set_conversation s (s_conversation s ++ [mkMessage "user" text []]), st',
       Returns (Some failedResult, Some (Errorf_w "failed to run agent" err)))
    /\ Conversation failedResult = []
    /\ world st' = w2
    /\ calls st' = calls st ++
         [ CallGenerate (s_description s) (s_strategy s) (s_successCriteria s)
             (s_failureCriteria s) (s_conversation s) true false;
           CallAgent text ].
Proof.
  intros Hturns Hagent Htester Hopen Hrun.
  rewrite (Run_first_turn _ _ _ _ _ _ Hturns Hagent Htester Hopen).
  rewrite turn_unfold. cbn [world clock calls]. rewrite Hrun. cbn zeta.
  eexists. split; [done|]. cbn. by rewrite <- (assoc_L (++)).
Qed.

(** X11. When the agent under test returns no message on the first turn,
    the run returns the error "no messages returned from agent" with the
    bare failed Result; the scenario keeps the user message of the turn and
    the testing agent is not called again. *)
Theorem Run_agent_no_messages s st agent testingAgent w1 text w2 :
  (1 <= s_maxTurns s)%Z ->
  s_agent s = Some agent ->
  s_testingAgent s = Some testingAgent ->
  GenerateNextMessage testingAgent (world st) (s_description s) (s_strategy s)
    (s_successCriteria s) (s_failureCriteria s) (s_conversation s) true false
  = (w1, Returns (Some text, None, None)) ->
  Agent_Run agent w1 text = (w2, Returns ([], None)) ->
  exists st',
    Run s st =
      (set_conversation s (s_conversation s ++ [mkMessage "user" text []]), st',
       Returns (Some failedResult,
                Some (errors_New "no messages returned from agent")))
    /\ world st' = w2
    /\ calls st' = calls st ++
         [ CallGenerate (s_description s) (s_strategy s) (s_successCriteria s)
             (s_failureCriteria s) (s_conversation s) true false;
           CallAgent text ].
Proof.
  intros Hturns Hagent Htester Hopen Hrun.
  rewrite (Run_first_turn _ _ _ _ _ _ Hturns Hagent Htester Hopen).
  rewrite turn_unfold. cbn [world clock calls]. rewrite Hrun. cbn.
  eexists. split; [done|]. cbn. by rewrite <- (assoc_L (++)).
Qed.

(** X12. A verdict on the first turn ends the run there, whatever the
    turn budget: with a nil error the run returns the testing agent's
    Result, its Success, conversation, reasoning and criteria untouched,
    after one call of the agent under test and two of the testing agent. *)
Theorem Run_verdict_on_first_turn s st agent testingAgent w1 text w2 reply w3
    message verdictResult :
  (1 <= s_maxTurns s)%Z ->
  s_agent s = Some agent ->
  s_testingAgent s = Some testingAgent ->
  GenerateNextMessage testingAgent (world st) (s_description s) (s_strategy s)
    (s_successCriteria s) (s_failureCriteria s) (s_conversation s) true false
  = (w1, Returns (Some text, None, None)) ->
  Agent_Run agent w1 text = (w2, Returns (reply, None)) ->
  reply <> [] ->
  (forall lastMessage,
     GenerateNextMessage testingAgent w2 (s_description s) (s_strategy s)
       (s_successCriteria s) (s_failureCriteria s)
       (s_conversation s ++ [mkMessage "user" text []] ++ normalized_spec reply)
       false lastMessage
     = (w3, Returns (message, Some verdictResult, None))) ->
  exists st' result,
    Run s st =
      (set_conversation s
         (s_conversation s ++ [mkMessage "user" text []] ++ normalized_spec reply),
       st', Returns (Some result, None))
    /\ Success result = Success verdictResult
    /\ Conversation result = Conversation verdictResult
    /\ Reasoning result = Reasoning verdictResult
    /\ MetCriteria result = MetCriteria verdictResult
    /\ UnmetCriteria result = UnmetCriteria verdictResult
    /\ TriggeredFailures result = TriggeredFailures verdictResult
    /\ world st' = w3
    /\ length (agentCalls (calls st')) = S (length (agentCalls (calls st)))
    /\ length (generateCalls (calls st'))
       = S (S (length (generateCalls (calls st)))).
Proof.
  intros Hturns Hagent Htester Hopen Hrun Hreply Hverdict.
  rewrite (Run_first_turn _ _ _ _ _ _ Hturns Hagent Htester Hopen).
  rewrite turn_unfold. cbn [world clock calls]. rewrite Hrun. cbn zeta.
  destruct reply as [|first rest]; [done|]. cbn [length Nat.eqb].
  rewrite Htester. cbn [s_conversation set_conversation]. rewrite Hverdict.
  do 2 eexists. split; [done|]. cbn.
  rewrite !agentCalls_app, !generateCalls_app, !length_app. cbn.
  repeat split; lia.
Qed.

(** What the loop returns: with an error, the bare failed Result and one
    of the three errors of the loop body; without, the turn-budget Result
    or a Result of the testing agent with the durations filled in. *)
Lemma turns_return agent testStart remaining :
  forall iteration currentMessage agentDuration s st s' st' r e,
  turns agent testStart remaining iteration currentMessage agentDuration s st
  = (s', st', Returns (r, e)) ->
  match e with
  | Some e =>
      r = Some failedResult
      /\ ((exists w text w' reply err,
             Agent_Run agent w text = (w', Returns (reply, Some err))
             /\ e = Errorf_w "failed to run agent" err)
          \/ e = errors_New "no messages returned from agent"
          \/ (exists testingAgent w conversation lastMessage w' message result err,
                s_testingAgent s = Some testingAgent
                /\ GenerateNextMessage testingAgent w (s_description s)
                     (s_strategy s) (s_successCriteria s) (s_failureCriteria s)
                     conversation false lastMessage
                   = (w', Returns (message, result, Some err))
                /\ e = Errorf_w "failed to generate next message" err))
  | None =>
      exists result total duration,
        r = Some result
        /\ TotalDurationNSec result = total
        /\ AgentDurationNSec result = duration
        /\ (result = mkResult false (s_conversation s')
                       ("The conversation did not end in a failure after "
                        +:+ itoa (s_maxTurns s) +:+ " turns.")
                       [] [] [] total duration
            \/ exists testingAgent w lastMessage message verdictResult,
                 s_testingAgent s = Some testingAgent
                 /\ GenerateNextMessage testingAgent w (s_description s)
                      (s_strategy s) (s_successCriteria s) (s_failureCriteria s)
                      (s_conversation s') false lastMessage
                    = (world st', Returns (message, Some verdictResult, None))
                 /\ result = mkResult (Success verdictResult)
                               (Conversation verdictResult)
                               (Reasoning verdictResult)
                               (MetCriteria verdictResult)
                               (UnmetCriteria verdictResult)
                               (TriggeredFailures verdictResult) total duration)
  end.
Proof.
  induction remaining as [|remaining IH];
    intros iteration currentMessage agentDuration s st s' st' r e; cbn [turns].
  - unfold time_Since, time_Now. intros [= <- <- <- <-].
    do 3 eexists. split; [reflexivity|]. cbn. by auto.
  - destruct currentMessage as [text|]; [|done].
    rewrite turn_unfold. cbn zeta.
    destruct (Agent_Run agent (world st) text)
      as [w1 [[reply [err|]]|]] eqn:Hrun; [| |done].
    { intros [= <- <- <- <-]. split; [done|]. left. by exists (world st), text, w1, reply, err. }
    destruct (length reply =? 0)%nat;
      [intros [= <- <- <- <-]; split; [done|]; by auto|].
    destruct (s_testingAgent s) as [testingAgent|] eqn:Htester; [|done].
    destruct (GenerateNextMessage _ _ _ _ _ _ _ _ _)
      as [w2 [[[message [result|]] [err|]]|]] eqn:Hgen; [| | | |done].
    + intros [= <- <- <- <-]. split; [done|]. right. right.
      by do 8 eexists.
    + intros [= <- <- <- <-]. do 3 eexists. split; [reflexivity|].
      split; [reflexivity|]. split; [reflexivity|]. right.
      exists testingAgent, w1. by do 3 eexists.
    + intros [= <- <- <- <-]. split; [done|]. right. right.
      by do 8 eexists.
    + intros Hturns. apply IH in Hturns.
      cbn [s_testingAgent s_description s_strategy s_successCriteria
           s_failureCriteria s_maxTurns set_conversation] in Hturns.
      by rewrite Htester in Hturns.
Qed.

(** X13. A run that returns a nil error returns a Result: either the
    turn-budget Result, with Success false, the conversation the scenario
    has reached, the reasoning naming maxTurns and empty criteria lists,
    or a Result that the testing agent gave on the conversation the
    scenario has reached, unchanged but for its two durations. *)
Theorem Run_nil_error_result s st s' st' r :
  Run s st = (s', st', Returns (r, None)) ->
  exists result total duration,
    r = Some result
    /\ (result = mkResult false (s_conversation s')
                   ("The conversation did not end in a failure after "
                    +:+ itoa (s_maxTurns s) +:+ " turns.")
                   [] [] [] total duration
        \/ exists testingAgent w lastMessage message verdictResult,
             s_testingAgent s = Some testingAgent
             /\ GenerateNextMessage testingAgent w (s_description s)
                  (s_strategy s) (s_successCriteria s) (s_failureCriteria s)
                  (s_conversation s') false lastMessage
                = (world st', Returns (message, Some verdictResult, None))
             /\ result = mkResult (Success verdictResult)
                           (Conversation verdictResult)
                           (Reasoning verdictResult)
                           (MetCriteria verdictResult)
                           (UnmetCriteria verdictResult)
                           (TriggeredFailures verdictResult) total duration).
Proof.
  unfold Run. destruct (s_agent s) as [agent|]; [|done].
  unfold time_Now, callTestingAgent. cbn [world clock calls].
  destruct (s_testingAgent s) as [testingAgent|] eqn:Htester; [|done].
  destruct (GenerateNextMessage _ _ _ _ _ _ _ _ _)
    as [w [[[message [result|]] [err|]]|]]; try done.
  intros Hturns. apply turns_return in Hturns.
  destruct Hturns as (result & total & duration & -> & _ & _ & Hresult).
  exists result, total, duration. split; [done|].
  by rewrite Htester in Hresult.
Qed.

(** X14. The errors of a run are six: "agent not set"; the error of the
    opening call, wrapped as "failed to generate initial message"; the
    report of a result from the opening call; the error of the agent under
    test, wrapped as "failed to run agent"; "no messages returned from
    agent"; the error of a later call of the testing agent, wrapped as
    "failed to generate next message". A collaborator's error is always
    kept inside the wrapping. *)
Theorem Run_error_taxonomy s st s' st' r e :
  Run s st = (s', st', Returns (r, Some e)) ->
  e = errors_New "agent not set"
  \/ (exists testingAgent w message result err,
        s_testingAgent s = Some testingAgent
        /\ GenerateNextMessage testingAgent (world st) (s_description s)
             (s_strategy s) (s_successCriteria s) (s_failureCriteria s)
             (s_conversation s) true false
           = (w, Returns (message, result, Some err))
        /\ e = Errorf_w "failed to generate initial message" err)
  \/ (exists initialResult,
        r = Some initialResult
        /\ e = Errorf_v "initial message generated a result which is unexpected"
                 initialResult)
  \/ (exists agent w text w' reply err,
        s_agent s = Some agent
        /\ Agent_Run agent w text = (w', Returns (reply, Some err))
        /\ e = Errorf_w "failed to run agent" err)
  \/ e = errors_New "no messages returned from agent"
  \/ (exists testingAgent w conversation lastMessage w' message result err,
        s_testingAgent s = Some testingAgent
        /\ GenerateNextMessage testingAgent w (s_description s) (s_strategy s)
             (s_successCriteria s) (s_failureCriteria s) conversation false
             lastMessage
           = (w', Returns (message, result, Some err))
        /\ e = Errorf_w "failed to generate next message" err).
Proof.
  unfold Run. destruct (s_agent s) as [agent|] eqn:Hagent;
    [|intros [= <- <- <- <-]; by left].
  unfold time_Now, callTestingAgent. cbn [world clock calls].
  destruct (s_testingAgent s) as [testingAgent|] eqn:Htester; [|done].
  destruct (GenerateNextMessage _ _ _ _ _ _ _ _ _)
    as [w [[[message [result|]] [err|]]|]] eqn:Hopen; try done.
  - intros [= <- <- <- <-]. right. left. by do 5 eexists.
  - intros [= <- <- <- <-]. do 2 right. left. by eexists.
  - intros [= <- <- <- <-]. right. left. by do 5 eexists.
  - intros Hturns. apply turns_return in Hturns.
    destruct Hturns as [_ [(w0 & text & w' & reply & err & Hrun & ->)
                          |[->|Hnext]]].
    + do 3 right. left. by exists agent, w0, text, w', reply, err.
    + do 4 right. by left.
    + do 5 right. by rewrite Htester in Hnext.
Qed.

Lemma steadyClock_shift (clock : nat -> Z) k :
  steadyClock clock -> steadyClock (fun n => clock (k + n)%nat).
Proof.
  intros Hsteady n. destruct (Hsteady (k + n)%nat) as (H0 & H1 & H2).
  replace (k + S n)%nat with (S (k + n)) by lia. done.
Qed.

Lemma steadyClock_le (clock : nat -> Z) i j :
  steadyClock clock -> (i <= j)%nat -> (clock i <= clock j)%Z.
Proof.
  intros Hsteady. induction 1 as [|j Hle IH]; [done|].
  destruct (Hsteady j) as (_ & Hstep & _). lia.
Qed.

(** The agent time accumulated by the loop stays within the time elapsed
    since the start of the run. *)
Lemma turns_durations agent testStart remaining :
  forall iteration currentMessage agentDuration s st s' st' result,
  steadyClock (clock st) ->
  (0 <= testStart <= clock st 0%nat)%Z ->
  (0 <= agentDuration <= clock st 0%nat - testStart)%Z ->
  turns agent testStart remaining iteration currentMessage agentDuration s st
  = (s', st', Returns (Some result, None)) ->
  (0 <= AgentDurationNSec result <= TotalDurationNSec result)%Z.
Proof.
  induction remaining as [|remaining IH];
    intros iteration currentMessage agentDuration s st s' st' result
      Hsteady Hstart Hduration; cbn [turns].
  - unfold time_Since, time_Now. intros [= <- <- <-]. cbn.
    destruct (Hsteady 0%nat) as (? & _ & ?). lia.
  - destruct currentMessage as [text|]; [|done].
    rewrite turn_unfold. cbn zeta.
    pose proof (Hsteady 0%nat) as (H0 & H01 & Hb0).
    pose proof (Hsteady 1%nat) as (H1 & H12 & Hb1).
    pose proof (Hsteady 2%nat) as (H2 & _ & Hb2).
    assert (Helapsed :
      wrap64 (agentDuration
              + Z.max (- 2 ^ 63)
                  (Z.min (2 ^ 63 - 1) (clock st 1%nat - clock st 0%nat)))
      = (agentDuration + (clock st 1%nat - clock st 0%nat))%Z).
    { rewrite wrap64_small; lia. }
    rewrite Helapsed.
    destruct (Agent_Run agent (world st) text)
      as [w1 [[reply [err|]]|]]; [done| |done].
    destruct (length reply =? 0)%nat; [done|].
    destruct (s_testingAgent s) as [testingAgent|]; [|done].
    destruct (GenerateNextMessage _ _ _ _ _ _ _ _ _)
      as [w2 [[[message [verdictResult|]] [err|]]|]]; try done.
    + intros [= <- <- <-]. cbn. lia.
    + apply IH; cbn [clock].
      * apply (steadyClock_shift (clock st) 2 Hsteady).
      * lia.
      * lia.
Qed.

(** X15. On a clock that does not run backwards, the Result of a run
    that ends without error has an agent time between zero and its total
    time, whatever durations the testing agent has put in its Result. *)
Theorem Run_durations s st s' st' result :
  steadyClock (clock st) ->
  Run s st = (s', st', Returns (Some result, None)) ->
  (0 <= AgentDurationNSec result <= TotalDurationNSec result)%Z.
Proof.
  intros Hsteady. unfold Run. destruct (s_agent s) as [agent|]; [|done].
  unfold time_Now, callTestingAgent. cbn [world clock calls].
  destruct (s_testingAgent s) as [testingAgent|]; [|done].
  destruct (GenerateNextMessage _ _ _ _ _ _ _ _ _)
    as [w [[[message [verdictResult|]] [err|]]|]]; try done.
  pose proof (Hsteady 0%nat) as (H0 & H01 & _).
  apply turns_durations; cbn [clock].
  - apply (steadyClock_shift (clock st) 1 Hsteady).
  - lia.
  - lia.
Qed.

Section RunAgain.

Variables (agent : Agent W) (testingAgent : TestingAgent W).

Hypothesis tester_continues :
  forall w description strategy successCriteria failureCriteria conversation
         firstMessage lastMessage,
  exists w' text,
    GenerateNextMessage testingAgent w description strategy successCriteria
      failureCriteria conversation firstMessage lastMessage
    = (w', Returns (Some text, None, None)).

Hypothesis agent_replies_once :
  forall w message,
  exists w' reply,
    Agent_Run agent w message = (w', Returns ([reply], None))
    /\ Role reply = "assistant".

(** A run without a verdict, from whatever conversation the scenario
    holds. *)
Lemma Run_without_verdict s st :
  s_agent s = Some agent ->
  s_testingAgent s = Some testingAgent ->
  exists st' result made,
    Run s st
    = (set_conversation s (s_conversation s ++ exchanges made), st',
       Returns (Some result, None))
    /\ Conversation result = s_conversation s ++ exchanges made
    /\ length made = Z.to_nat (s_maxTurns s).
Proof.
  intros Hagent Htester.
  unfold Run, callTestingAgent, time_Now. rewrite Hagent, Htester.
  cbn [world clock calls].
  match goal with
  | |- context [GenerateNextMessage testingAgent ?w ?d ?g ?sc ?fc ?c ?f ?l] =>
      destruct (tester_continues w d g sc fc c f l) as (w1 & text & ->)
  end.
  match goal with
  | |- context [turns agent ?t0 ?n ?i (Some text) ?d ?s1 ?st1] =>
      destruct (turns_without_verdict agent testingAgent tester_continues
                  agent_replies_once t0 n i text d s1 st1 Htester)
        as (st' & made & total & duration & -> & Hlen & _)
  end.
  eexists st', _, made. split; [reflexivity|]. by split.
Qed.

(** X16. A run does not reset the conversation. With collaborators that
    never end the run early, a second run of the same scenario returns a
    conversation that begins with the one the first run returned and
    goes on with the turns of the second. *)
Theorem Run_again_continues_transcript s st :
  s_agent s = Some agent ->
  s_testingAgent s = Some testingAgent ->
  exists s1 st1 result1 made1 s2 st2 result2 made2,
    Run s st = (s1, st1, Returns (Some result1, None))
    /\ Conversation result1 = s_conversation s ++ exchanges made1
    /\ length made1 = Z.to_nat (s_maxTurns s)
    /\ Run s1 st1 = (s2, st2, Returns (Some result2, None))
    /\ Conversation result2 = Conversation result1 ++ exchanges made2
    /\ length made2 = Z.to_nat (s_maxTurns s).
Proof.
  intros Hagent Htester.
  destruct (Run_without_verdict s st Hagent Htester)
    as (st1 & result1 & made1 & Hrun1 & Hconv1 & Hlen1).
  destruct (Run_without_verdict
              (set_conversation s (s_conversation s ++ exchanges made1)) st1
              Hagent Htester)
    as (st2 & result2 & made2 & Hrun2 & Hconv2 & Hlen2).
  do 8 eexists. split; [exact Hrun1|]. split; [exact Hconv1|].
  split; [exact Hlen1|]. split; [exact Hrun2|].
  split; [by rewrite Hconv2, Hconv1|exact Hlen2].
Qed.

End RunAgain.

End RunFacts.

(** ** More on the testing agent *)

Section TestingAgentMore.

Context {W : Type}.
Variable json_MarshalIndent : list string -> string * option error.

Implicit Types (t : testingAgent W) (w : W) (conversation : list Message).

Lemma transcript_length systemMessage conversation lastMessage :
  length (transcript systemMessage conversation lastMessage)
  = (2 + length conversation + (if lastMessage then 1 else 0))%nat.
Proof.
  unfold transcript. cbn [app length]. rewrite length_app.
  destruct lastMessage; cbn [length]; lia.
Qed.

(** X17. A call of GenerateNextMessage that gets past the rendering of
    the prompt calls the backend once, with a request of the system
    prompt, the greeting, the conversation and, on the last message, the
    cue; with finish_test as the only tool; with the agent's temperature
    and token limit; and with the tool choice "required" on the last
    message and none otherwise. A call that fails before does not reach the
    backend. The flag firstMessage changes nothing. *)
Theorem GenerateNextMessage_request t description strategy successCriteria
    failureCriteria conversation lastMessage :
  match buildRequest json_MarshalIndent t description strategy successCriteria
          failureCriteria conversation lastMessage with
  | Ok request =>
      req_tools request = finishTestTools
      /\ req_temperature request = temperature t
      /\ req_maxTokens request = maxTokens t
      /\ req_toolChoice request = (if lastMessage then Some "required" else None)
      /\ length (req_messages request)
         = (2 + length conversation + (if lastMessage then 1 else 0))%nat
      /\ (forall w firstMessage,
           testingAgent_GenerateNextMessage json_MarshalIndent t w description
             strategy successCriteria failureCriteria conversation firstMessage
             lastMessage
           = match Completion (llmCompletion t) w request with
             | (w', Panics) => (w', Panics)
             | (w', Returns answer) => (w', readCompletion conversation answer)
             end)
  | Err err =>
      forall w firstMessage,
        testingAgent_GenerateNextMessage json_MarshalIndent t w description
          strategy successCriteria failureCriteria conversation firstMessage
          lastMessage
        = (w, Returns (None, None, Some err))
  end.
Proof.
  destruct (buildRequest _ _ _ _ _ _ _ _) as [request|err] eqn:Hreq.
  - destruct (buildRequest_messages _ _ _ _ _ _ _ _ _ Hreq)
      as [systemMessage Hmessages].
    rewrite Hmessages, transcript_length.
    assert (Hrest : req_tools request = finishTestTools
              /\ req_temperature request = temperature t
              /\ req_maxTokens request = maxTokens t
              /\ req_toolChoice request
                 = (if lastMessage then Some "required" else None)).
    { revert Hreq. unfold buildRequest.
      destruct (json_MarshalIndent successCriteria) as [? [?|]]; [done|].
      destruct (json_MarshalIndent failureCriteria) as [? [?|]]; [done|].
      match goal with
      | |- context [Execute ?tmpl ?params] =>
          pose proof (Execute_nil_error tmpl params);
          destruct (Execute tmpl params) as [? [?|]]; [done|]
      end.
      intros [= <-]. by destruct lastMessage. }
    destruct Hrest as (? & ? & ? & ?). repeat (split; [done|]).
    intros w firstMessage. unfold testingAgent_GenerateNextMessage.
    by rewrite Hreq.
  - intros w firstMessage. unfold testingAgent_GenerateNextMessage.
    by rewrite Hreq.
Qed.

(** X18. An error of the backend is returned wrapped as "failed to
    generate llm completion", without message or result, whatever response
    came with it. *)
Theorem GenerateNextMessage_backend_error t w description strategy
    successCriteria failureCriteria conversation firstMessage lastMessage
    request w' resp err :
  buildRequest json_MarshalIndent t description strategy successCriteria
    failureCriteria conversation lastMessage = Ok request ->
  Completion (llmCompletion t) w request = (w', Returns (resp, Some err)) ->
  testingAgent_GenerateNextMessage json_MarshalIndent t w description strategy
    successCriteria failureCriteria conversation firstMessage lastMessage
  = (w', Returns (None, None,
                  Some (Errorf_w "failed to generate llm completion" err))).
Proof.
  intros Hreq Hcall.
  erewrite GenerateNextMessage_answer by eassumption.
  unfold readCompletion. by destruct resp.
Qed.

(** X19. A response without tool calls in its first choice: no choice
    at all gives the error "no choices returned"; a first choice with
    empty content gives "no content returned in choice"; otherwise the
    content of the first choice is the next message. *)
Theorem GenerateNextMessage_plain_response t w description strategy
    successCriteria failureCriteria conversation firstMessage lastMessage
    request w' resp :
  buildRequest json_MarshalIndent t description strategy successCriteria
    failureCriteria conversation lastMessage = Ok request ->
  Completion (llmCompletion t) w request = (w', Returns (Some resp, None)) ->
  Forall (fun choice => Choice_ToolCalls (Choice_Message choice) = [])
    (take 1 (Choices resp)) ->
  testingAgent_GenerateNextMessage json_MarshalIndent t w description strategy
    successCriteria failureCriteria conversation firstMessage lastMessage
  = (w',
     match Choices resp with
     | [] => Returns (None, None, Some (errors_New "no choices returned"))
     | choice :: _ =>
         if decide (Choice_Content (Choice_Message choice) = "")
         then Returns (None, None,
                       Some (errors_New "no content returned in choice"))
         else Returns (Some (Choice_Content (Choice_Message choice)), None, None)
     end).
Proof.
  intros Hreq Hcall Hplain.
  erewrite GenerateNextMessage_answer by eassumption.
  unfold readCompletion.
  destruct (Choices resp) as [|choice rest]; [done|].
  cbn [take] in Hplain. apply Forall_cons in Hplain as [Hcalls _].
  unfold readChoice. rewrite Hcalls.
  destruct (String.eqb_spec (Choice_Content (Choice_Message choice)) "");
    by case_decide.
Qed.

(** X20. A first tool call that is not of function type is an error,
    "tool call is not a function", whatever its name, its arguments, the
    content beside it and the tool calls after it. *)
Theorem GenerateNextMessage_tool_call_not_function t w description strategy
    successCriteria failureCriteria conversation firstMessage lastMessage
    request w' resp choice choices toolCall toolCalls :
  buildRequest json_MarshalIndent t description strategy successCriteria
    failureCriteria conversation lastMessage = Ok request ->
  Completion (llmCompletion t) w request = (w', Returns (Some resp, None)) ->
  Choices resp = choice :: choices ->
  Choice_ToolCalls (Choice_Message choice) = toolCall :: toolCalls ->
  ToolCall_Type toolCall <> ToolTypeFunction ->
  testingAgent_GenerateNextMessage json_MarshalIndent t w description strategy
    successCriteria failureCriteria conversation firstMessage lastMessage
  = (w', Returns (None, None, Some (errors_New "tool call is not a function"))).
Proof.
  intros Hreq Hcall Hchoices Hcalls Htype.
  erewrite GenerateNextMessage_answer by eassumption.
  unfold readCompletion, readChoice. rewrite Hchoices, Hcalls.
  apply String.eqb_neq in Htype. by rewrite Htype.
Qed.

(** X21. Of the backend's answer only the first choice and, in it, the
    first tool call are read: further choices and further tool calls, a
    finish_test call among them, change nothing. *)
Theorem readCompletion_first_choice_first_call conversation choice choices :
  readCompletion conversation (Some (mkResponse (choice :: choices)), None)
  = readCompletion conversation
      (Some (mkResponse
         [mkChoice (mkChoiceMessage (Choice_Content (Choice_Message choice))
                      (take 1 (Choice_ToolCalls (Choice_Message choice))))]),
       None).
Proof.
  unfold readCompletion, readChoice. cbn [Choices Choice_Message
    Choice_Content Choice_ToolCalls].
  by destruct (Choice_ToolCalls (Choice_Message choice)).
Qed.

(** X22. A finish_test call whose arguments do not parse is an error,
    the parse error wrapped as "failed to extract finish_test parameters":
    the content that came with the call is not used as the next message. *)
Theorem GenerateNextMessage_finish_test_parse_error t w description strategy
    successCriteria failureCriteria conversation firstMessage lastMessage
    request w' resp choice choices toolCall toolCalls function err :
  buildRequest json_MarshalIndent t description strategy successCriteria
    failureCriteria conversation lastMessage = Ok request ->
  Completion (llmCompletion t) w request = (w', Returns (Some resp, None)) ->
  Choices resp = choice :: choices ->
  Choice_ToolCalls (Choice_Message choice) = toolCall :: toolCalls ->
  ToolCall_Type toolCall = ToolTypeFunction ->
  ToolCall_Function toolCall = Some function ->
  Call_Name function = "finish_test" ->
  extractFinishTestParams toolCall = Returns (Err err) ->
  testingAgent_GenerateNextMessage json_MarshalIndent t w description strategy
    successCriteria failureCriteria conversation firstMessage lastMessage
  = (w', Returns (None, None,
                  Some (Errorf_w "failed to extract finish_test parameters" err))).
Proof.
  intros Hreq Hcall Hchoices Hcalls Htype Hfn Hname Hparams.
  erewrite GenerateNextMessage_answer by eassumption.
  unfold readCompletion. rewrite Hchoices.
  erewrite readChoice_function_call by eassumption.
  by rewrite Hname, Hparams.
Qed.

End TestingAgentMore.

(** ** More on the parsing of the finish_test arguments *)

Lemma asStrings_strings (strings : list string) :
  asStrings (VString <$> strings) = Some strings.
Proof.
  induction strings as [|s strings IH]; [done|]. cbn. by rewrite IH.
Qed.

Lemma extractItems_strings key i (strings : list string) :
  extractItems key i (VString <$> strings) = Ok strings.
Proof.
  pose proof (extractItems_asStrings key i (VString <$> strings)) as H.
  by rewrite asStrings_strings in H.
Qed.

Lemma extractItems_first_bad key i (good : list string) bad rest :
  isString bad = false ->
  extractItems key i ((VString <$> good) ++ bad :: rest)
  = Err (errors_New ("item at index " +:+ itoa (i + Z.of_nat (length good))
                     +:+ " in " +:+ key +:+ " is not a string")).
Proof.
  intros Hbad. revert i. induction good as [|s good IH]; intros i.
  - cbn [fmap list_fmap app length]. rewrite Z.add_0_r.
    by destruct bad.
  - cbn [fmap list_fmap app extractItems length]. fold (fmap (M:=list) VString good).
    rewrite IH.
    by replace (i + 1 + Z.of_nat (length good))%Z
      with (i + Z.of_nat (S (length good)))%Z by lia.
Qed.

(** X23. What is stored under a key is what is read back: a sequence of
    strings, heterogeneous or homogeneous, comes back as it is, with its
    order, duplicates and empty strings; nil comes back as the empty
    sequence; and after the key is deleted the extraction fails with
    "<key> not found". *)
Theorem extractStringArray_insert (data : gmap string value) key strings :
  extractStringArray (<[key := VSliceAny (VString <$> strings)]> data) key
  = Ok strings
  /\ extractStringArray (<[key := VSliceString strings]> data) key = Ok strings
  /\ extractStringArray (<[key := VNil]> data) key = Ok []
  /\ extractStringArray (delete key data) key
     = Err (errors_New (key +:+ " not found")).
Proof.
  unfold extractStringArray.
  rewrite !lookup_insert_eq, lookup_delete_eq.
  by rewrite extractItems_strings.
Qed.

(** X24. A heterogeneous sequence with an element that is not a string
    is rejected with the index of the first such element. *)
Theorem extractStringArray_first_bad_item (data : gmap string value) key
    (good : list string) bad rest :
  isString bad = false ->
  extractStringArray
    (<[key := VSliceAny ((VString <$> good) ++ bad :: rest)]> data) key
  = Err (errors_New ("item at index " +:+ itoa (Z.of_nat (length good))
                     +:+ " in " +:+ key +:+ " is not a string")).
Proof.
  intros Hbad. unfold extractStringArray. rewrite lookup_insert_eq.
  by rewrite extractItems_first_bad.
Qed.

Lemma details_lookup (a b c : value) :
  let details : gmap string value :=
    list_to_map [("met_criteria", a); ("unmet_criteria", b);
                 ("triggered_failures", c)] in
  details !! "met_criteria" = Some a
  /\ details !! "unmet_criteria" = Some b
  /\ details !! "triggered_failures" = Some c.
Proof. by vm_compute. Qed.

Lemma encodeFinishTest_lookup p :
  encodeFinishTest p !! "verdict" = Some (VString (verdict p))
  /\ encodeFinishTest p !! "reasoning" = Some (VString (reasoning p))
  /\ encodeFinishTest p !! "details"
     = Some (VMap (list_to_map
         [ ("met_criteria", VSliceAny (VString <$> metCriteria p));
           ("unmet_criteria", VSliceAny (VString <$> unmetCriteria p));
           ("triggered_failures", VSliceAny (VString <$> triggeredFailures p)) ])).
Proof. by vm_compute. Qed.

(** X25. Arguments that carry a verdict, a reasoning and the three
    criteria arrays, as decoded from JSON, are parsed back to these five
    values, whatever the tool call's id and type and whatever further
    keys the arguments hold. *)
Theorem extractFinishTestParams_round_trip id type name p
    (extra : gmap string value) :
  extractFinishTestParams
    (mkToolCall id type
       (Some (mkToolCallFunction name (encodeFinishTest p ∪ extra))))
  = Returns (Ok p).
Proof.
  destruct (encodeFinishTest_lookup p) as (Hv & Hr & Hd).
  destruct (details_lookup (VSliceAny (VString <$> metCriteria p))
              (VSliceAny (VString <$> unmetCriteria p))
              (VSliceAny (VString <$> triggeredFailures p)))
    as (Hmet & Hunmet & Htriggered).
  unfold extractFinishTestParams. cbn [ToolCall_Function Arguments].
  rewrite (lookup_union_Some_l _ extra _ _ Hv),
    (lookup_union_Some_l _ extra _ _ Hr), (lookup_union_Some_l _ extra _ _ Hd).
  unfold extractStringArray. rewrite Hmet, Hunmet, Htriggered.
  rewrite !extractItems_strings. by destruct p.
Qed.

(** ** The OpenAI adapter *)

Section AdapterFacts.

Context {W : Type}.
Variable json_Unmarshal : string -> res (gmap string value).

Implicit Types (c : openAICompletion W) (w : W).

Lemma convertMessage_known (message : Message) :
  knownRole (Role message) = true ->
  exists openaiMessage,
    convertMessage message = Some openaiMessage
    /\ unionRole openaiMessage = Role message
    /\ unionContent openaiMessage = Content message.
Proof.
  unfold knownRole. intros Hknown%bool_decide_eq_true.
  unfold convertMessage, MessageRoleUser, MessageRoleAssistant,
    MessageRoleSystem, MessageRoleDeveloper.
  repeat (apply elem_of_cons in Hknown as [->|Hknown]; [by eexists|]).
  by apply elem_of_nil in Hknown.
Qed.

Lemma convertMessage_unknown (message : Message) :
  knownRole (Role message) = false -> convertMessage message = None.
Proof.
  unfold knownRole. intros Hunknown%bool_decide_eq_false.
  unfold convertMessage, MessageRoleUser, MessageRoleAssistant,
    MessageRoleSystem, MessageRoleDeveloper.
  destruct (String.eqb_spec (Role message) "user") as [Heq|_];
    [exfalso; apply Hunknown; rewrite Heq; set_solver|].
  destruct (String.eqb_spec (Role message) "assistant") as [Heq|_];
    [exfalso; apply Hunknown; rewrite Heq; set_solver|].
  destruct (String.eqb_spec (Role message) "system") as [Heq|_];
    [exfalso; apply Hunknown; rewrite Heq; set_solver|].
  destruct (String.eqb_spec (Role message) "developer") as [Heq|_];
    [exfalso; apply Hunknown; rewrite Heq; set_solver|].
  done.
Qed.

Lemma convertMessages_known (messages : list Message) :
  Forall (fun message => knownRole (Role message) = true) messages ->
  exists openaiMessages,
    convertMessages messages = Ok openaiMessages
    /\ unionRole <$> openaiMessages = Role <$> messages
    /\ unionContent <$> openaiMessages = Content <$> messages.
Proof.
  induction 1 as [|message messages Hknown _ (openaiMessages & IH & Hr & Hc)].
  - by exists [].
  - destruct (convertMessage_known _ Hknown) as (openaiMessage & Hm & Hr1 & Hc1).
    exists (openaiMessage :: openaiMessages). cbn. rewrite Hm, IH.
    by rewrite Hr, Hc, Hr1, Hc1.
Qed.

Lemma convertMessages_first_unknown (good : list Message) bad rest :
  Forall (fun message => knownRole (Role message) = true) good ->
  knownRole (Role bad) = false ->
  convertMessages (good ++ bad :: rest)
  = Err (errors_New ("unknown message role: " +:+ Role bad)).
Proof.
  intros Hgood Hbad.
  induction Hgood as [|message good Hknown _ IH]; cbn.
  - by rewrite (convertMessage_unknown _ Hbad).
  - destruct (convertMessage_known _ Hknown) as (openaiMessage & -> & _).
    by rewrite IH.
Qed.

Lemma convertTools_function (tools : list Tool) :
  Forall functionTool tools ->
  exists openaiTools,
    convertTools tools = Returns (Ok openaiTools)
    /\ Forall2 (fun tool openaiTool =>
                  tp_Type openaiTool = "function"
                  /\ exists function,
                       Tool_Function tool = Some function
                       /\ tp_Function openaiTool
                          = mkFunctionDefinitionParam (Name function)
                              (Description function) (Strict function)
                              (Parameters function))
         tools openaiTools.
Proof.
  induction 1 as [|tool tools [Htype Hfn] _ (openaiTools & IH & Hall)].
  - by exists [].
  - destruct (Tool_Function tool) as [function|] eqn:Hfunction; [|done].
    eexists (_ :: openaiTools). cbn. rewrite Htype, Hfunction, IH. cbn.
    split; [reflexivity|]. constructor; [|done].
    split; [done|]. by exists function.
Qed.

Lemma convertTools_first_bad (good : list Tool) bad rest :
  Forall functionTool good ->
  Tool_Type bad <> ToolTypeFunction ->
  convertTools (good ++ bad :: rest)
  = Returns (Err (errors_New ("tool type is not function: " +:+ Tool_Type bad))).
Proof.
  intros Hgood Hbad.
  induction Hgood as [|tool good [Htype Hfn] _ IH]; cbn.
  - apply String.eqb_neq in Hbad. by rewrite Hbad.
  - destruct (Tool_Function tool) as [function|]; [|done].
    rewrite Htype, IH. done.
Qed.

(** X26. A message whose role is none of user, assistant, system and
    developer makes the adapter fail with "unknown message role: <role>",
    naming the first such message; the client is not called, and the tools
    are not looked at. *)
Theorem Completion_unknown_role c w request good bad rest :
  req_messages request = good ++ bad :: rest ->
  Forall (fun message => knownRole (Role message) = true) good ->
  knownRole (Role bad) = false ->
  openAICompletion_Completion json_Unmarshal c w request
  = (w, Returns (None, Some (errors_New ("unknown message role: " +:+ Role bad)))).
Proof.
  intros Hmessages Hgood Hbad. unfold openAICompletion_Completion.
  by rewrite Hmessages, (convertMessages_first_unknown _ _ _ Hgood Hbad).
Qed.

(** X27. With messages of known roles, a tool that is not of function
    type makes the adapter fail with "tool type is not function: <type>",
    naming the first such tool; the client is not called. *)
Theorem Completion_tool_not_function c w request good bad rest :
  Forall (fun message => knownRole (Role message) = true) (req_messages request) ->
  req_tools request = good ++ bad :: rest ->
  Forall functionTool good ->
  Tool_Type bad <> ToolTypeFunction ->
  openAICompletion_Completion json_Unmarshal c w request
  = (w, Returns (None, Some (errors_New ("tool type is not function: "
                                          +:+ Tool_Type bad)))).
Proof.
  intros Hknown Htools Hgood Hbad. unfold openAICompletion_Completion.
  destruct (convertMessages_known _ Hknown) as (openaiMessages & -> & _).
  by rewrite Htools, (convertTools_first_bad _ _ _ Hgood Hbad).
Qed.

(** X28. With messages of known roles and tools of function type, the
    client is called once, with one message per message of the request, in
    the same order, of the same role and content (the tool calls of a
    message are not sent), one tool per tool, the adapter's model, and the
    temperature and token limit of the request. The tool choice of the
    request is not sent: whatever it is, the call is the same. *)
Theorem Completion_params c w messages temperature maxTokens tools :
  Forall (fun message => knownRole (Role message) = true) messages ->
  Forall functionTool tools ->
  exists params,
    unionRole <$> np_Messages params = Role <$> messages
    /\ unionContent <$> np_Messages params = Content <$> messages
    /\ Forall2 (fun tool openaiTool =>
                  tp_Type openaiTool = "function"
                  /\ exists function,
                       Tool_Function tool = Some function
                       /\ tp_Function openaiTool
                          = mkFunctionDefinitionParam (Name function)
                              (Description function) (Strict function)
                              (Parameters function))
         tools (np_Tools params)
    /\ np_Model params = model c
    /\ np_Temperature params = temperature
    /\ np_MaxTokens params = maxTokens
    /\ np_ToolChoice params = None
    /\ forall toolChoice,
         (openAICompletion_Completion json_Unmarshal c w
            (mkRequest messages temperature maxTokens tools toolChoice)).1
         = (Chat_Completions_New (client c) w params).1.
Proof.
  intros Hknown Htools.
  destruct (convertMessages_known _ Hknown) as (openaiMessages & Hm & Hr & Hc).
  destruct (convertTools_function _ Htools) as (openaiTools & Ht & Hall).
  exists (mkNewParams openaiMessages (model c) openaiTools temperature
            maxTokens None).
  repeat (split; [done|]). intros toolChoice.
  unfold openAICompletion_Completion. cbn [req_messages req_tools
    req_temperature req_maxTokens]. rewrite Hm, Ht.
  destruct (Chat_Completions_New _ _ _)
    as [w' [[[chatCompletion|] [err|]]|]]; try done.
  cbn. by destruct (convertChoices _ _ _).
Qed.

Lemma convertToolCalls_ok i j toolCalls converted :
  convertToolCalls json_Unmarshal i j toolCalls = Ok converted ->
  Forall2 (fun toolCall converted =>
             ID converted = cc_ID toolCall
             /\ ToolCall_Type converted = cc_Type toolCall
             /\ exists args,
                  json_Unmarshal (ccf_Arguments (cc_Function toolCall)) = Ok args
                  /\ ToolCall_Function converted
                     = Some (mkToolCallFunction
                               (ccf_Name (cc_Function toolCall)) args))
    toolCalls converted.
Proof.
  revert j converted.
  induction toolCalls as [|toolCall toolCalls IH]; intros j converted; cbn.
  - intros [= <-]. constructor.
  - destruct (json_Unmarshal _) as [args|err] eqn:Hargs; [|done].
    destruct (convertToolCalls _ _ _ _) as [rest|] eqn:Hrest; [|done].
    intros [= <-]. constructor; [|by eapply IH].
    cbn. repeat split. by exists args.
Qed.

Lemma convertChoices_ok i choices converted :
  convertChoices json_Unmarshal i choices = Ok converted ->
  Forall2 (fun choice converted =>
             Choice_Content (Choice_Message converted)
             = cm_Content (cc_Message choice)
             /\ Forall2 (fun toolCall converted =>
                  ID converted = cc_ID toolCall
                  /\ ToolCall_Type converted = cc_Type toolCall
                  /\ exists args,
                       json_Unmarshal (ccf_Arguments (cc_Function toolCall))
                       = Ok args
                       /\ ToolCall_Function converted
                          = Some (mkToolCallFunction
                                    (ccf_Name (cc_Function toolCall)) args))
                  (cm_ToolCalls (cc_Message choice))
                  (Choice_ToolCalls (Choice_Message converted)))
    choices converted.
Proof.
  revert i converted.
  induction choices as [|choice choices IH]; intros i converted; cbn.
  - intros [= <-]. constructor.
  - destruct (convertToolCalls _ _ _ _) as [toolCalls|] eqn:Hcalls; [|done].
    destruct (convertChoices _ _ _) as [rest|] eqn:Hrest; [|done].
    intros [= <-]. constructor; [|by eapply IH].
    cbn. split; [done|]. by eapply convertToolCalls_ok.
Qed.

(** X29. A response of the adapter mirrors the completion of the client:
    as many choices, in the same order, each with the content and with as
    many tool calls, each tool call with the id, the type and the
    function name of the client's and with its arguments decoded from
    their JSON text. *)
Theorem Completion_response c w request w' resp :
  openAICompletion_Completion json_Unmarshal c w request
  = (w', Returns (Some resp, None)) ->
  exists params chatCompletion,
    Chat_Completions_New (client c) w params
    = (w', Returns (Some chatCompletion, None))
    /\ Forall2 (fun choice converted =>
             Choice_Content (Choice_Message converted)
             = cm_Content (cc_Message choice)
             /\ Forall2 (fun toolCall converted =>
                  ID converted = cc_ID toolCall
                  /\ ToolCall_Type converted = cc_Type toolCall
                  /\ exists args,
                       json_Unmarshal (ccf_Arguments (cc_Function toolCall))
                       = Ok args
                       /\ ToolCall_Function converted
                          = Some (mkToolCallFunction
                                    (ccf_Name (cc_Function toolCall)) args))
                  (cm_ToolCalls (cc_Message choice))
                  (Choice_ToolCalls (Choice_Message converted)))
         (cc_Choices chatCompletion) (Choices resp).
Proof.
  unfold openAICompletion_Completion.
  destruct (convertMessages _) as [openaiMessages|]; [|done].
  destruct (convertTools _) as [[openaiTools|]|]; [|done|done].
  cbn zeta.
  destruct (Chat_Completions_New _ _ _)
    as [w1 [[[chatCompletion|] [err|]]|]] eqn:Hcall; try done.
  destruct (convertChoices _ _ _) as [choices|] eqn:Hchoices; [|done].
  intros [= <- <-]. do 2 eexists. split; [exact Hcall|].
  by eapply convertChoices_ok.
Qed.

(** X30. The testing agent over the adapter: as the roles of the
    conversation reach the backend as they are, a conversation holding a
    message of a role the adapter does not know (a tool message, say)
    makes GenerateNextMessage fail with "failed to generate llm completion"
    around "unknown message role: <role>", and the client is not called. *)
Theorem GenerateNextMessage_over_adapter_unknown_role
    (json_MarshalIndent : list string -> string * option error)
    (t : testingAgent W) c w description strategy successCriteria
    failureCriteria conversation firstMessage lastMessage request good bad rest :
  llmCompletion t = openAIBackend json_Unmarshal c ->
  buildRequest json_MarshalIndent t description strategy successCriteria
    failureCriteria conversation lastMessage = Ok request ->
  conversation = good ++ bad :: rest ->
  Forall (fun message => knownRole (Role message) = true) good ->
  knownRole (Role bad) = false ->
  testingAgent_GenerateNextMessage json_MarshalIndent t w description strategy
    successCriteria failureCriteria conversation firstMessage lastMessage
  = (w, Returns (None, None,
       Some (Errorf_w "failed to generate llm completion"
               (errors_New ("unknown message role: " +:+ Role bad))))).
Proof.
  intros Hbackend Hreq Hconversation Hgood Hbad.
  destruct (buildRequest_messages _ _ _ _ _ _ _ _ _ Hreq)
    as [systemMessage Hmessages].
  assert (Hcall : Completion (llmCompletion t) w request
            = (w, Returns (None,
                 Some (errors_New ("unknown message role: " +:+ Role bad))))).
  { rewrite Hbackend. cbn [Completion openAIBackend].
    unfold openAICompletion_Completion.
    assert (Htranscript :
      transcript systemMessage (good ++ bad :: rest) lastMessage
      = ([ mkMessage MessageRoleSystem systemMessage [];
           mkMessage MessageRoleAssistant "Hello, how can I help you today?" [] ]
         ++ good)
        ++ bad :: (rest ++ (if lastMessage
                            then [mkMessage MessageRoleUser
                                    testingAgentFinishTestMessage []]
                            else []))).
    { unfold transcript. by rewrite <- !(assoc_L (++)). }
    rewrite Hmessages, Hconversation, Htranscript.
    rewrite convertMessages_first_unknown; [done| |done].
    by repeat constructor. }
  erewrite GenerateNextMessage_answer by eassumption. done.
Qed.

End AdapterFacts.

(** ** The further statements on the examples *)

(** X2 on two options given in both orders. *)
Lemma NewScenario_order_independent_witness :
  NewScenario (W := unit) [WithMaxTurns 3; WithDescription "d"]
  = NewScenario [WithDescription "d"; WithMaxTurns 3].
Proof.
  apply NewScenario_order_independent.
  - apply (bool_decide_unpack _). by vm_compute.
  - apply perm_swap.
Defined.

(** X5 on two turns of the echoing agent. *)
Lemma Run_call_protocol_witness :
  exists new,
    calls (Run (sampleScenario 2) (startState 0%nat)).1.2 = [] ++ new
    /\ length new = 5%nat.
Proof.
  destruct (Run_call_protocol (sampleScenario 2) (startState 0%nat))
    as (new & Hcalls & _); [by vm_compute|].
  exists new. split; [exact Hcalls|].
  assert (Hnew : new = calls (Run (sampleScenario 2) (startState 0%nat)).1.2)
    by (symmetry; exact Hcalls).
  rewrite Hnew. reflexivity.
Defined.

(** X6 on a scenario without options. *)
Lemma Run_without_agent_witness :
  Run (W := unit) (NewScenario []) (startState ())
  = (NewScenario [], startState (),
     Returns (Some failedResult, Some (errors_New "agent not set"))).
Proof. apply Run_without_agent. reflexivity. Defined.

(** X7 on a scenario with the echoing agent alone. *)
Lemma Run_without_testing_agent_witness :
  exists st',
    Run (W := unit) (scenarioOf (Some echoAgent) None) (startState ())
    = (scenarioOf (Some echoAgent) None, st', Panics)
    /\ calls st' = [] /\ world st' = ().
Proof.
  apply (Run_without_testing_agent (scenarioOf (Some echoAgent) None)
           (startState ()) echoAgent); reflexivity.
Defined.

(** X8 on a testing agent that fails. *)
Lemma Run_opening_error_witness :
  exists st',
    Run (W := unit)
      (scenarioOf (Some echoAgent) (Some (failingTester (errors_New "down"))))
      (startState ())
    = (scenarioOf (Some echoAgent) (Some (failingTester (errors_New "down"))),
       st',
       Returns (Some failedResult,
                Some (Errorf_w "failed to generate initial message"
                        (errors_New "down"))))
    /\ agentCalls (calls st') = [].
Proof.
  destruct (Run_opening_error
              (scenarioOf (Some echoAgent) (Some (failingTester (errors_New "down"))))
              (startState ()) echoAgent (failingTester (errors_New "down"))
              () None None (errors_New "down") eq_refl eq_refl eq_refl)
    as (st' & Hrun & _ & Hcalls).
  exists st'. split; [exact Hrun|]. rewrite Hcalls. reflexivity.
Defined.

(** X9 on a testing agent that returns three nils, with the default
    budget. *)
Lemma Run_nil_opening_message_witness :
  (Run (W := unit) (scenarioOf (Some echoAgent) (Some muteTester))
     (startState ())).2 = Panics.
Proof.
  destruct (Run_nil_opening_message
              (scenarioOf (Some echoAgent) (Some muteTester)) (startState ())
              echoAgent muteTester () eq_refl eq_refl eq_refl)
    as (st' & _ & _ & Hpanic & _).
  apply Hpanic. by vm_compute.
Defined.

(** X10 on an agent under test that fails. *)
Lemma Run_agent_error_witness :
  exists s' st',
    Run (scenarioOf (Some (failingAgent (errors_New "agent failed")))
           (Some countingTester)) (startState 0%nat)
    = (s', st',
       Returns (Some failedResult,
                Some (Errorf_w "failed to run agent" (errors_New "agent failed"))))
    /\ length (s_conversation s') = 1%nat.
Proof.
  destruct (Run_agent_error
              (scenarioOf (Some (failingAgent (errors_New "agent failed")))
                 (Some countingTester)) (startState 0%nat)
              (failingAgent (errors_New "agent failed")) countingTester
              1%nat "User message turn 1" 1%nat [] (errors_New "agent failed"))
    as (st' & Hrun & _); [by vm_compute|reflexivity|reflexivity|reflexivity
                         |reflexivity|].
  do 2 eexists. split; [exact Hrun|reflexivity].
Defined.

(** X11 on an agent under test that returns no message. *)
Lemma Run_agent_no_messages_witness :
  exists s' st',
    Run (scenarioOf (Some silentAgent) (Some countingTester)) (startState 0%nat)
    = (s', st',
       Returns (Some failedResult,
                Some (errors_New "no messages returned from agent")))
    /\ length (s_conversation s') = 1%nat.
Proof.
  destruct (Run_agent_no_messages
              (scenarioOf (Some silentAgent) (Some countingTester))
              (startState 0%nat) silentAgent countingTester
              1%nat "User message turn 1" 1%nat)
    as (st' & Hrun & _); [by vm_compute|reflexivity|reflexivity|reflexivity
                         |reflexivity|].
  do 2 eexists. split; [exact Hrun|reflexivity].
Defined.

(** X12 on the two mocks with their default behaviour and two turns. *)
Lemma Run_verdict_on_first_turn_witness :
  exists s' st' result,
    Run (mockScenario 2) (startState ()) = (s', st', Returns (Some result, None))
    /\ Success result = true
    /\ Reasoning result = "Test succeeded"
    /\ MetCriteria result = ["Success criteria met"]
    /\ Conversation result
       = [ mkMessage "user" "Initial user message" [];
           mkMessage "assistant" "Agent response to: Initial user message" [] ].
Proof.
  destruct (Run_verdict_on_first_turn (mockScenario 2) (startState ())
              (mockAgentOf (mkMockAgent None))
              (mockTestingAgentOf (mkMockTestingAgent None))
              () "Initial user message" ()
              [mkMessage "assistant" "Agent response to: Initial user message" []]
              () None
              (NewSuccessPartialResult
                 [ mkMessage "user" "Initial user message" [];
                   mkMessage "assistant"
                     "Agent response to: Initial user message" [] ]
                 "Test succeeded" ["Success criteria met"]))
    as (st' & result & Hrun & Hs & Hc & Hr & Hm & _);
    [by vm_compute|reflexivity|reflexivity|reflexivity|reflexivity
    |discriminate|intros; reflexivity|].
  do 3 eexists. split; [exact Hrun|]. by rewrite Hs, Hc, Hr, Hm.
Defined.

(** X13 on one turn of the echoing agent. *)
Lemma Run_nil_error_result_witness :
  exists s' st' r,
    Run (sampleScenario 1) (startState 0%nat) = (s', st', Returns (r, None))
    /\ r <> None.
Proof.
  destruct (Run (sampleScenario 1) (startState 0%nat)) as [[s' st'] out] eqn:Hrun.
  assert (Hout : exists r, out = Returns (r, None)).
  { pose proof (f_equal snd Hrun) as Hval. cbn [snd] in Hval.
    vm_compute in Hval. rewrite <- Hval. by eexists. }
  destruct Hout as [r ->]. exists s', st', r. split; [reflexivity|].
  destruct (Run_nil_error_result _ _ _ _ _ Hrun)
    as (result & total & duration & -> & _).
  discriminate.
Defined.

(** X14 on an agent under test that fails. *)
Lemma Run_error_taxonomy_witness :
  exists s' st' r e,
    Run (scenarioOf (Some (failingAgent (errors_New "agent failed")))
           (Some countingTester)) (startState 0%nat)
    = (s', st', Returns (r, Some e))
    /\ e <> errors_New "agent not set".
Proof.
  destruct (Run (scenarioOf (Some (failingAgent (errors_New "agent failed")))
                   (Some countingTester)) (startState 0%nat))
    as [[s' st'] out] eqn:Hrun.
  assert (Hout : out = Returns (Some failedResult,
                   Some (Errorf_w "failed to run agent"
                           (errors_New "agent failed")))).
  { pose proof (f_equal snd Hrun) as Hval. cbn [snd] in Hval.
    vm_compute in Hval. rewrite <- Hval. reflexivity. }
  subst out. do 4 eexists. split; [reflexivity|].
  destruct (Run_error_taxonomy _ _ _ _ _ _ Hrun) as [He|_];
    [discriminate He|discriminate].
Defined.

(** X15 on three turns of the echoing agent on a steady clock. *)
Lemma Run_durations_witness :
  exists s' st' result,
    Run (sampleScenario 3) (steadyState 0%nat) = (s', st', Returns (Some result, None))
    /\ (0 <= AgentDurationNSec result <= TotalDurationNSec result)%Z.
Proof.
  destruct (Run (sampleScenario 3) (steadyState 0%nat))
    as [[s' st'] out] eqn:Hrun.
  assert (Hout : exists result, out = Returns (Some result, None)).
  { pose proof (f_equal snd Hrun) as Hval. cbn [snd] in Hval.
    vm_compute in Hval. rewrite <- Hval. by eexists. }
  destruct Hout as [result ->]. exists s', st', result. split; [reflexivity|].
  apply (Run_durations (sampleScenario 3) (steadyState 0%nat) s' st' result);
    [|exact Hrun].
  intros n. cbn [clock steadyState]. lia.
Defined.

(** X16 on two runs of two turns of the echoing agent. *)
Lemma Run_again_continues_transcript_witness :
  exists s1 st1 result1 s2 st2 result2,
    Run (sampleScenario 2) (startState 0%nat) = (s1, st1, Returns (Some result1, None))
    /\ Run s1 st1 = (s2, st2, Returns (Some result2, None))
    /\ length (Conversation result1) = 4%nat
    /\ length (Conversation result2) = 8%nat.
Proof.
  destruct (Run_again_continues_transcript echoAgent countingTester
              (fun w _ _ _ _ _ _ _ => ex_intro _ (S w) (ex_intro _ _ eq_refl))
              (fun w message => ex_intro _ w (ex_intro _ _ (conj eq_refl eq_refl)))
              (sampleScenario 2) (startState 0%nat) eq_refl eq_refl)
    as (s1 & st1 & result1 & made1 & s2 & st2 & result2 & made2
        & Hrun1 & Hconv1 & Hlen1 & Hrun2 & Hconv2 & Hlen2).
  exists s1, st1, result1, s2, st2, result2.
  split; [exact Hrun1|]. split; [exact Hrun2|].
  rewrite Hconv2, Hconv1, !length_app, !exchanges_length, Hlen1, Hlen2.
  split; reflexivity.
Defined.

(** X18 on a backend that fails. *)
Lemma GenerateNextMessage_backend_error_witness :
  snd (testingAgent_GenerateNextMessage sampleMarshalIndent
         (sampleTestingAgent (None, Some (errors_New "timeout")))
         [] "d" "s" [] [] sampleConversation false false)
  = Returns (None, None,
             Some (Errorf_w "failed to generate llm completion"
                     (errors_New "timeout"))).
Proof.
  erewrite (GenerateNextMessage_backend_error sampleMarshalIndent
              (sampleTestingAgent (None, Some (errors_New "timeout")))
              [] "d" "s" [] [] sampleConversation false false);
    [reflexivity|reflexivity|reflexivity].
Defined.

(** X19 on a backend that answers with text. *)
Lemma GenerateNextMessage_plain_response_witness :
  snd (testingAgent_GenerateNextMessage sampleMarshalIndent
         (sampleTestingAgent (textAnswer "ok"))
         [] "d" "s" [] [] sampleConversation false false)
  = Returns (Some "ok", None, None).
Proof.
  erewrite (GenerateNextMessage_plain_response sampleMarshalIndent
              (sampleTestingAgent (textAnswer "ok"))
              [] "d" "s" [] [] sampleConversation false false); cycle 1.
  - reflexivity.
  - reflexivity.
  - repeat constructor.
  - reflexivity.
Defined.

(** X20 on a tool call of another type. *)
Lemma GenerateNextMessage_tool_call_not_function_witness :
  snd (testingAgent_GenerateNextMessage sampleMarshalIndent
         (sampleTestingAgent
            (toolCallAnswer "go on" (mkToolCall "call_3" "invalid_type" None)))
         [] "d" "s" [] [] sampleConversation false true)
  = Returns (None, None, Some (errors_New "tool call is not a function")).
Proof.
  erewrite (GenerateNextMessage_tool_call_not_function sampleMarshalIndent
              (sampleTestingAgent
                 (toolCallAnswer "go on" (mkToolCall "call_3" "invalid_type" None)))
              [] "d" "s" [] [] sampleConversation false true); cycle 1.
  - reflexivity.
  - reflexivity.
  - reflexivity.
  - reflexivity.
  - discriminate.
  - reflexivity.
Defined.

(** X22 on a finish_test call without the key met_criteria. *)
Lemma GenerateNextMessage_finish_test_parse_error_witness :
  snd (testingAgent_GenerateNextMessage sampleMarshalIndent
         (sampleTestingAgent
            (toolCallAnswer "all done"
               (finishTestCall (verdictArguments "success" detailsWithoutMet))))
         [] "d" "s" [] [] sampleConversation false true)
  = Returns (None, None,
             Some (Errorf_w "failed to extract finish_test parameters"
                     (errors_New "met_criteria not found"))).
Proof.
  erewrite (GenerateNextMessage_finish_test_parse_error sampleMarshalIndent
              (sampleTestingAgent
                 (toolCallAnswer "all done"
                    (finishTestCall (verdictArguments "success" detailsWithoutMet))))
              [] "d" "s" [] [] sampleConversation false true); cycle 1.
  - reflexivity.
  - reflexivity.
  - reflexivity.
  - reflexivity.
  - reflexivity.
  - reflexivity.
  - reflexivity.
  - by vm_compute.
  - reflexivity.
Defined.

(** X24 on a number after two strings. *)
Lemma extractStringArray_first_bad_item_witness :
  extractStringArray
    (<["met_criteria" := VSliceAny [VString "a"; VString "b"; VFloat64 0;
                                    VString "c"]]> ∅) "met_criteria"
  = Err (errors_New "item at index 2 in met_criteria is not a string").
Proof.
  exact (extractStringArray_first_bad_item ∅ "met_criteria" ["a"; "b"]
           (VFloat64 0) [VString "c"] eq_refl).
Defined.

(** X26 on a conversation with a tool message. *)
Lemma Completion_unknown_role_witness :
  openAICompletion_Completion sampleUnmarshal (sampleAdapter "{}") []
    (mkRequest (sampleConversation ++ [toolMessage]) None None finishTestTools None)
  = ([], Returns (None, Some (errors_New "unknown message role: tool"))).
Proof.
  apply (Completion_unknown_role sampleUnmarshal (sampleAdapter "{}") []
           (mkRequest (sampleConversation ++ [toolMessage]) None None
              finishTestTools None)
           sampleConversation toolMessage []);
    [reflexivity|by repeat constructor|reflexivity].
Defined.

(** X27 on a tool of another type. *)
Lemma Completion_tool_not_function_witness :
  openAICompletion_Completion sampleUnmarshal (sampleAdapter "{}") []
    (mkRequest sampleConversation None None
       (finishTestTools ++ [mkTool "retrieval" None]) None)
  = ([], Returns (None, Some (errors_New "tool type is not function: retrieval"))).
Proof.
  apply (Completion_tool_not_function sampleUnmarshal (sampleAdapter "{}") []
           (mkRequest sampleConversation None None
              (finishTestTools ++ [mkTool "retrieval" None]) None)
           finishTestTools (mkTool "retrieval" None) []);
    [by repeat constructor|reflexivity| |discriminate].
  repeat constructor. discriminate.
Defined.

(** X28 on the conversation of the examples and the finish_test tool. *)
Lemma Completion_params_witness :
  exists params,
    unionRole <$> np_Messages params = ["user"; "assistant"]
    /\ np_ToolChoice params = None
    /\ (openAICompletion_Completion sampleUnmarshal (sampleAdapter "{}") []
          (mkRequest sampleConversation (Some 0%Z) None finishTestTools
             (Some "required"))).1
       = [params].
Proof.
  destruct (Completion_params sampleUnmarshal (sampleAdapter "{}") []
              sampleConversation (Some 0%Z) None finishTestTools)
    as (params & Hroles & _ & _ & _ & _ & _ & Hchoice & Hcall).
  - by repeat constructor.
  - repeat constructor. discriminate.
  - exists params. split; [exact Hroles|]. split; [exact Hchoice|].
    rewrite Hcall. reflexivity.
Defined.

(** X29 on a completion with one tool call. *)
Lemma Completion_response_witness :
  exists w' resp,
    openAICompletion_Completion sampleUnmarshal (sampleAdapter "{}") []
      (mkRequest sampleConversation None None finishTestTools None)
    = (w', Returns (Some resp, None))
    /\ length (Choices resp) = 1%nat.
Proof.
  destruct (openAICompletion_Completion sampleUnmarshal (sampleAdapter "{}") []
              (mkRequest sampleConversation None None finishTestTools None))
    as [w' out] eqn:Hcall.
  assert (Hout : exists resp, out = Returns (Some resp, None)).
  { pose proof (f_equal snd Hcall) as Hval. cbn [snd] in Hval.
    vm_compute in Hval. rewrite <- Hval. by eexists. }
  destruct Hout as [resp ->]. exists w', resp. split; [reflexivity|].
  destruct (Completion_response _ _ _ _ _ _ Hcall)
    as (params & chatCompletion & Hclient & Hmirror).
  apply Forall2_length in Hmirror. rewrite <- Hmirror.
  cbn in Hclient. injection Hclient as _ <-. reflexivity.
Defined.

(** X30 on a conversation with a tool message. *)
Lemma GenerateNextMessage_over_adapter_unknown_role_witness :
  testingAgent_GenerateNextMessage sampleMarshalIndent
    {| llmCompletion := openAIBackend sampleUnmarshal (sampleAdapter "{}");
       temperature := Some 0%Z; maxTokens := None |}
    [] "d" "s" [] [] (sampleConversation ++ [toolMessage]) false false
  = ([], Returns (None, None,
        Some (Errorf_w "failed to generate llm completion"
                (errors_New "unknown message role: tool")))).
Proof.
  eapply (GenerateNextMessage_over_adapter_unknown_role sampleUnmarshal
            sampleMarshalIndent
            {| llmCompletion := openAIBackend sampleUnmarshal (sampleAdapter "{}");
               temperature := Some 0%Z; maxTokens := None |}
            (sampleAdapter "{}") [] "d" "s" [] []
            (sampleConversation ++ [toolMessage]) false false _
            sampleConversation toolMessage []);
    [reflexivity|reflexivity|reflexivity|by repeat constructor|reflexivity].
Defined.
